(** * Segmentation service of the virtual tumor board

    A shallow embedding of [services/segmentation/main.py] and
    [services/segmentation/predictor.py]: the run-length mask codec, the
    demo mask synthesizers, contour post-processing, the predictor object
    and the HTTP endpoints.

    Python [float] is IEEE binary64 and is modelled by Rocq's primitive
    floats; Python [int] is [Z]; a raised exception is the [Raise] case of
    [result].  Library calls whose code is outside the repository
    (numpy's Mersenne Twister, [base64.b64decode], [cv2.findContours]) are
    section variables. *)

From Stdlib Require Import String ZArith List Bool Floats Lia.
Import ListNotations.

(** Decimal constants of the source (0.7, 1.3, ...) denote the nearest
    binary64 value, as they do in Python. *)
Set Warnings "-inexact-float".

Local Open Scope Z_scope.

(** ** Exceptions and results *)

Inductive exn : Type :=
| HTTPException (status_code : Z)
| ValueError
| OverflowError
| IndexError
| BinasciiError
| Cv2Error.

Inductive result (A : Type) : Type :=
| Return (a : A)
| Raise (e : exn).

Arguments Return {A} a.
Arguments Raise {A} e.

Definition bind {A B} (c : result A) (k : A -> result B) : result B :=
  match c with
  | Return a => k a
  | Raise e => Raise e
  end.

Declare Scope result_scope.
Delimit Scope result_scope with result.
Notation "x <- c ;; k" := (bind c (fun x => k))
  (at level 61, c at next level, right associativity) : result_scope.
Local Open Scope result_scope.

(** [try: c except Exception as e: raise h(e)].  Every constructor of [exn]
    is a subclass of [Exception], [HTTPException] included. *)
Definition try_except_Exception {A} (c : result A) (h : exn -> exn) : result A :=
  match c with
  | Return a => Return a
  | Raise e => Raise (h e)
  end.

(** The status code FastAPI answers with: 200 for a returned response, the
    code of an [HTTPException], 500 for any other exception. *)
Definition http_status {A} (r : result A) : Z :=
  match r with
  | Return _ => 200
  | Raise (HTTPException c) => c
  | Raise _ => 500
  end.

(** ** Masks: dense boolean grids of shape (H, W) *)

Record mask : Type := Mask {
  mask_H : nat;
  mask_W : nat;
  mask_rows : list (list bool)
}.

(** [H] rows of [W] entries each. *)
Definition wf_mask (m : mask) : Prop :=
  length (mask_rows m) = mask_H m /\
  Forall (fun r => length r = mask_W m) (mask_rows m).

(** [mask.flatten()]: row-major. *)
Definition flatten (m : mask) : list bool := concat (mask_rows m).

(** [.astype(np.uint8)] on a boolean. *)
Definition astype_uint8 (b : bool) : Z := if b then 1 else 0.

(** Subtraction of [uint8] values wraps around. *)
Definition uint8_sub (a b : Z) : Z := (a - b) mod 256.

(** [np.diff(flat)] on a [uint8] vector: [flat[i+1] - flat[i]]. *)
Fixpoint np_diff (flat : list Z) : list Z :=
  match flat with
  | a :: (b :: _) as t => uint8_sub b a :: np_diff t
  | _ => []
  end.

(** [np.where(changes != 0)[0]], the indices counted from [i]. *)
Fixpoint np_where_nonzero (i : nat) (changes : list Z) : list nat :=
  match changes with
  | [] => []
  | c :: t =>
      if c =? 0 then np_where_nonzero (S i) t
      else i :: np_where_nonzero (S i) t
  end.

Definition change_indices (flat : list Z) : list nat :=
  map (fun i => (i + 1)%nat) (np_where_nonzero 0 (np_diff flat)).

(** One [value, length] pair of the encoding. *)
Definition run : Type := (Z * Z)%type.

Definition mask_to_rle (m : mask) : list run :=
  let flat := map astype_uint8 (flatten m) in
  if (length flat =? 0)%nat then []
  else
    let ci := change_indices flat in
    let starts := [0%nat] ++ ci in
    let ends := ci ++ [length flat] in
    map (fun se : nat * nat =>
           let (start, end_) := se in
           (nth start flat 0, Z.of_nat end_ - Z.of_nat start))
        (combine starts ends).

(** Modelled from the spec: the decoder of the mask codec is not among the
    service's sources (only the encoder [mask_to_rle] is).  "Expanding each
    [value, length] pair in order". *)
Definition rle_expand (rle : list run) : list bool :=
  flat_map (fun r : run => repeat (negb (fst r =? 0)) (Z.to_nat (snd r))) rle.

(** Modelled from the spec: "reshaping row-major to (H, W)", the second
    half of the missing decoder. *)
Fixpoint reshape (H W : nat) (flat : list bool) : list (list bool) :=
  match H with
  | O => []
  | S h => firstn W flat :: reshape h W (skipn W flat)
  end.

(** Modelled from the spec: [decode(rle, shape)] of the missing decoder.
    It "must validate [sum(length) == H*W]; mismatch is a
    [MalformedEncoding] error, not a partial result" ([None] here). *)
Definition decode (rle : list run) (H W : nat) : option mask :=
  let flat := rle_expand rle in
  if (length flat =? H * W)%nat then Some (Mask H W (reshape H W flat))
  else None.

(** *** Vocabulary for the codec's properties *)

(** No two adjacent runs carry the same value. *)
Fixpoint no_adjacent_equal (rle : list run) : bool :=
  match rle with
  | r1 :: (r2 :: _) as t => negb (fst r1 =? fst r2) && no_adjacent_equal t
  | _ => true
  end.

Definition sum_lengths (rle : list run) : Z :=
  fold_right (fun r acc => snd r + acc) 0 rle.

Definition is_uint8 (v : Z) : Prop := 0 <= v < 256.

Definition to_bool (v : Z) : bool := negb (v =? 0).

(** A structural reading of the encoder, used in the proofs: the run in
    progress has value [v] and [c] elements so far. *)
Fixpoint runs_from (v : Z) (c : nat) (l : list Z) : list run :=
  match l with
  | [] => [(v, Z.of_nat c)]
  | b :: t =>
      if v =? b then runs_from v (S c) t
      else (v, Z.of_nat c) :: runs_from b 1 t
  end.

(** ** Python numbers *)

(** [float(z)] for an integer, rounded to nearest even. *)
Definition float_of_int (z : Z) : float :=
  SF2Prim (binary_normalize prec emax z 0 false).

(** [z / 2] for an integer [z]: true division, correctly rounded. *)
Definition int_truediv_2 (z : Z) : float :=
  SF2Prim (binary_normalize prec emax z (-1) false).

(** [int(f)]: truncation toward zero; [ValueError] on NaN and
    [OverflowError] on an infinity. *)
Definition py_int (f : float) : result Z :=
  match Prim2SF f with
  | S754_zero _ => Return 0
  | S754_finite sign m e =>
      let magnitude :=
        match e with
        | Zneg p => Z.shiftr (Zpos m) (Zpos p)
        | _ => Z.shiftl (Zpos m) e
        end in
      Return (if sign then - magnitude else magnitude)
  | S754_infinity _ => Raise OverflowError
  | S754_nan => Raise ValueError
  end.

(** Truthiness of an [Optional[List[...]]]: neither [None] nor empty. *)
Definition truthy {A} (o : option (list A)) : bool :=
  match o with
  | Some (_ :: _) => true
  | _ => false
  end.

(** ** Pydantic models of the endpoint layer *)

Record PointPrompt : Type := {
  x : float;
  y : float;
  label : Z
}.

Record BoxPrompt : Type := {
  x1 : float;
  y1 : float;
  x2 : float;
  y2 : float
}.

Record SegmentationRequest : Type := {
  slice_data : string;
  slice_shape : list Z;
  points : option (list PointPrompt);
  boxes : option (list BoxPrompt);
  window_center : option float;
  window_width : option float
}.

(** The same request with another slice buffer. *)
Definition with_slice_data (request : SegmentationRequest) (data : string)
    : SegmentationRequest :=
  {| slice_data := data;
     slice_shape := slice_shape request;
     points := points request;
     boxes := boxes request;
     window_center := window_center request;
     window_width := window_width request |}.

Definition polygon : Type := list (float * float).

Record SegmentationResponse : Type := {
  mask_rle : list run;
  mask_shape : list Z;
  confidence : float;
  contours : option (list polygon)
}.

Record HealthResponse : Type := {
  status : string;
  model_loaded : bool;
  mode : string
}.

(** ** numpy pieces shared by both synthesizers *)

(** [np.zeros((H, W))] refuses a negative dimension and an element count
    beyond [intp].  (Running out of memory is not modelled.) *)
Definition np_zeros_ok (H W : Z) : bool :=
  (0 <=? H) && (0 <=? W) && (H * W <? 2 ^ 63).

(** One entry of
    [((x_grid - cx) / rx) ** 2 + ((y_grid - cy) / ry) ** 2]; the grids are
    integer, [cx], [cy] are floats, [rx], [ry] are integers, and numpy
    squares by multiplying.  Dividing by a zero radius gives an infinity
    or a NaN, not an exception. *)
Definition ellipse_dist (cx cy : float) (rx ry : Z) (xg yg : Z) : float :=
  let dx := ((float_of_int xg - cx) / float_of_int rx)%float in
  let dy := ((float_of_int yg - cy) / float_of_int ry)%float in
  (dx * dx + dy * dy)%float.

(** A boolean grid of shape (H, W) given entry by entry. *)
Definition np_grid (H W : Z) (entry : nat -> nat -> bool) : mask :=
  Mask (Z.to_nat H) (Z.to_nat W)
       (map (fun yi => map (fun xi => entry yi xi) (seq 0 (Z.to_nat W)))
            (seq 0 (Z.to_nat H))).

(** A seed accepted by [np.random.seed]: "Seed must be between 0 and
    2**32 - 1". *)
Definition seed_ok (seed : Z) : bool := (0 <=? seed) && (seed <? 2 ^ 32).

(** The center the endpoint-layer synthesizer derives from the prompts. *)
Definition demo_center (H W : Z) (points : option (list PointPrompt))
    (boxes : option (list BoxPrompt)) : float * float :=
  match points with
  | Some ((_ :: _) as ps) =>
      let fg_points := filter (fun p => label p =? 1) ps in
      match fg_points with
      | p :: _ => (x p, y p)
      | [] => (int_truediv_2 W, int_truediv_2 H)
      end
  | _ =>
      match boxes with
      | Some (box :: _) =>
          ((x1 box + x2 box) / 2, (y1 box + y2 box) / 2)%float
      | _ => (int_truediv_2 W, int_truediv_2 H)
      end
  end.

(** [cx * 100 + cy * 10], the float handed to [int(...)]. *)
Definition seed_value (c : float * float) : float :=
  (fst c * 100 + snd c * 10)%float.

(** ** The predictor's prompt dictionary and object *)

(** The dict built by the endpoint: keys ["points"], ["labels"], ["boxes"],
    each present or not. *)
Record Prompt : Type := {
  prompt_points : option (list (float * float));
  prompt_labels : option (list Z);
  prompt_boxes : option (list (float * float * float * float))
}.

(** The comprehension
    [[(p[0], p[1]) for i, p in enumerate(points) if labels[i] == 1]];
    a missing [labels[i]] is an [IndexError]. *)
Fixpoint fg_points_from (labels : list Z) (i : nat)
    (pts : list (float * float)) : result (list (float * float)) :=
  match pts with
  | [] => Return []
  | p :: t =>
      match nth_error labels i with
      | None => Raise IndexError
      | Some l =>
          rest <- fg_points_from labels (S i) t ;;
          Return (if l =? 1 then p :: rest else rest)
      end
  end.

Definition predictor_center (H W : Z) (prompt : Prompt)
    : result (float * float) :=
  match prompt_points prompt with
  | Some ((_ :: _) as pts) =>
      let labels :=
        match prompt_labels prompt with
        | Some ls => ls
        | None => repeat 1 (length pts)
        end in
      fg_points <- fg_points_from labels 0 pts ;;
      match fg_points with
      | c :: _ => Return c
      | [] => Return (int_truediv_2 W, int_truediv_2 H)
      end
  | _ =>
      match prompt_boxes prompt with
      | Some ((bx1, by1, bx2, by2) :: _) =>
          Return ((bx1 + bx2) / 2, (by1 + by2) / 2)%float
      | _ => Return (int_truediv_2 W, int_truediv_2 H)
      end
  end.

Inductive Sam3Model : Type := Sam3ImageModel.

Record MedSAM3Predictor : Type := {
  device : string;
  model : option Sam3Model;
  predictor_model_loaded : bool
}.

(** What [load_model] meets outside the repository. *)
Inductive load_outcome : Type :=
| CheckpointNotFound
| TorchLoadRaises
| Sam3ImportError
| BuildReturnsNone
| LoadStateDictRaises
| WeightsLoaded.

(** [load_model]: the updated object and the returned flag. *)
Definition load_model (HAS_TORCH : bool) (self : MedSAM3Predictor)
    (outcome : load_outcome) : MedSAM3Predictor * bool :=
  if negb HAS_TORCH then (self, false)
  else
    match outcome with
    | CheckpointNotFound | TorchLoadRaises | Sam3ImportError => (self, false)
    | BuildReturnsNone =>
        ({| device := device self; model := None;
            predictor_model_loaded := predictor_model_loaded self |}, false)
    | LoadStateDictRaises =>
        ({| device := device self; model := Some Sam3ImageModel;
            predictor_model_loaded := predictor_model_loaded self |}, false)
    | WeightsLoaded =>
        ({| device := device self; model := Some Sam3ImageModel;
            predictor_model_loaded := true |}, true)
    end.

(** [MedSAM3Predictor.__init__]; [detected] is the device found when
    [device] is not given. *)
Definition predictor_init (HAS_TORCH : bool) (detected : string)
    (checkpoint_path : option string) (outcome : load_outcome)
    : MedSAM3Predictor :=
  if negb HAS_TORCH then
    {| device := "cpu"; model := None; predictor_model_loaded := false |}
  else
    let self :=
      {| device := detected; model := None;
         predictor_model_loaded := false |} in
    match checkpoint_path with
    | Some path =>
        if (String.length path =? 0)%nat then self
        else fst (load_model HAS_TORCH self outcome)
    | None => self
    end.

(** [lifespan]: the global [predictor] the requests see. *)
Definition lifespan (HAS_PREDICTOR : bool) (checkpoint_path : option string)
    (path_exists : bool) (HAS_TORCH : bool) (detected : string)
    (outcome : load_outcome) : option MedSAM3Predictor :=
  match checkpoint_path with
  | Some path =>
      if HAS_PREDICTOR && negb (String.length path =? 0)%nat && path_exists
      then Some (predictor_init HAS_TORCH detected checkpoint_path outcome)
      else None
  | None => None
  end.

(** [health_check]: an object is truthy, so [mode] tests only that the
    global is not [None]. *)
Definition health_check (predictor : option MedSAM3Predictor)
    : HealthResponse :=
  {| status := "healthy";
     model_loaded :=
       match predictor with
       | Some p => predictor_model_loaded p
       | None => false
       end;
     mode :=
       match predictor with
       | Some _ => "production"
       | None => "demo"
       end |}.

(** The test of [segment_slice] for the model path. *)
Definition model_path (predictor : option MedSAM3Predictor) : bool :=
  match predictor with
  | Some p => predictor_model_loaded p
  | None => false
  end.

(** A float that is NaN or plus infinity. *)
Definition nan_or_pinf (f : float) : Prop :=
  Prim2SF f = S754_nan \/ Prim2SF f = S754_infinity false.

(** ** The dictionaries of the info endpoints *)

Inductive value : Type :=
| VBool (b : bool)
| VInt (z : Z)
| VStr (s : string).

(** A Python dict with string keys, in insertion order. *)
Definition dict : Type := list (string * value).

Fixpoint dict_get (d : dict) (key : string) : option value :=
  match d with
  | [] => None
  | (k, v) :: rest => if String.eqb k key then Some v else dict_get rest key
  end.

(** [d[key] = v]: the entry is replaced in place, or appended. *)
Fixpoint dict_set (d : dict) (key : string) (v : value) : dict :=
  match d with
  | [] => [(key, v)]
  | (k, w) :: rest =>
      if String.eqb k key then (k, v) :: rest
      else (k, w) :: dict_set rest key v
  end.

(** [sum(p.numel() for p in parameters if keep(p))]; a parameter is its
    element count and its [requires_grad] flag. *)
Definition sum_numel (keep : Z * bool -> bool) (parameters : list (Z * bool))
    : Z :=
  fold_right (fun p acc => fst p + acc) 0 (filter keep parameters).

(** [MedSAM3Predictor.get_model_info]; [parameters] is
    [self.model.parameters()].  [image_size] is 1008 whether the attribute
    was set by [__init__] or [getattr] falls back to its default. *)
Definition get_model_info (HAS_TORCH HAS_CV2 : bool)
    (parameters : Sam3Model -> list (Z * bool)) (self : MedSAM3Predictor)
    : dict :=
  let info :=
    [("loaded"%string, VBool (predictor_model_loaded self));
     ("device"%string, VStr (device self));
     ("image_size"%string, VInt 1008);
     ("has_torch"%string, VBool HAS_TORCH);
     ("has_cv2"%string, VBool HAS_CV2)] in
  match model self with
  | Some mdl =>
      if predictor_model_loaded self then
        let total_params := sum_numel (fun _ => true) (parameters mdl) in
        let trainable_params := sum_numel snd (parameters mdl) in
        dict_set (dict_set info "total_params" (VInt total_params))
                 "trainable_params" (VInt trainable_params)
      else info
  | None => info
  end.

(** [model_info], the GET /model-info endpoint. *)
Definition model_info (HAS_TORCH HAS_CV2 : bool)
    (parameters : Sam3Model -> list (Z * bool))
    (predictor : option MedSAM3Predictor) : dict :=
  match predictor with
  | Some p => get_model_info HAS_TORCH HAS_CV2 parameters p
  | None =>
      [("loaded"%string, VBool false);
       ("mode"%string, VStr "demo");
       ("description"%string,
        VStr "Running in demo mode - generating synthetic masks")]
  end.

(** ** Stand-ins for the libraries, to run the service on examples

    The theorems below hold for every random generator, base64 decoder and
    contour tracer.  These simple instances only serve to evaluate the
    model on concrete requests. *)
Module Standin.

(** A linear congruential generator in place of the Mersenne Twister. *)
Definition rng : Type := Z.

Definition mt_seed (seed : Z) : rng := seed.

Fixpoint random_sample (st : rng) (n : nat) : list float * rng :=
  match n with
  | O => ([], st)
  | S k =>
      let st1 := (1664525 * st + 1013904223) mod 2 ^ 32 in
      let (rest, st2) := random_sample st1 k in
      ((float_of_int st1 / float_of_int (2 ^ 32))%float :: rest, st2)
  end.

Definition b64_digit (c : Ascii.ascii) : option Z :=
  let n := Z.of_N (Ascii.N_of_ascii c) in
  if (65 <=? n) && (n <=? 90) then Some (n - 65)
  else if (97 <=? n) && (n <=? 122) then Some (n - 71)
  else if (48 <=? n) && (n <=? 57) then Some (n + 4)
  else if n =? 43 then Some 62
  else if n =? 47 then Some 63
  else None.

Definition byte_of_Z (z : Z) : Byte.byte :=
  match Byte.of_N (Z.to_N (z mod 256)) with
  | Some b => b
  | None => Byte.x00
  end.

(** Strict RFC 4648 decoding of complete, padded quadruples. *)
Fixpoint b64_quads (fuel : nat) (s : list Ascii.ascii)
    : result (list Byte.byte) :=
  match fuel, s with
  | _, [] => Return []
  | S k, a :: b :: c :: d :: t =>
      let pad := Ascii.ascii_of_nat 61 in
      match b64_digit a, b64_digit b with
      | Some va, Some vb =>
          let b0 := byte_of_Z (va * 4 + vb / 16) in
          match b64_digit c, b64_digit d, t with
          | Some vc, Some vd, _ =>
              rest <- b64_quads k t ;;
              Return (b0 :: byte_of_Z (vb * 16 + vc / 4)
                         :: byte_of_Z (vc * 64 + vd) :: rest)
          | Some vc, None, [] =>
              if Ascii.eqb d pad
              then Return [b0; byte_of_Z (vb * 16 + vc / 4)]
              else Raise BinasciiError
          | None, None, [] =>
              if Ascii.eqb c pad && Ascii.eqb d pad then Return [b0]
              else Raise BinasciiError
          | _, _, _ => Raise BinasciiError
          end
      | _, _ => Raise BinasciiError
      end
  | _, _ => Raise BinasciiError
  end.

Definition b64decode (data : string) : result (list Byte.byte) :=
  let s := list_ascii_of_string data in b64_quads (length s) s.

(** A tracer that reports every set pixel as a contour of its own; an
    image without pixels is an error. *)
Definition findContours (img : list (list Z)) : result (list (list (Z * Z))) :=
  match concat img with
  | [] => Raise Cv2Error
  | _ =>
      Return
        (concat
           (map (fun yr : nat * list Z =>
                   map (fun xi => [(Z.of_nat xi, Z.of_nat (fst yr))])
                       (filter (fun xi => negb (nth xi (snd yr) 0 =? 0))
                               (seq 0 (length (snd yr)))))
                (combine (seq 0 (length img)) img)))
  end.

End Standin.

(** ** Concrete prompts and requests used in the examples *)
Module Examples.

(** A 7 x 7 slice has radii [rx = ry = 1]; around the center (3.5, 3.5)
    the distance field takes the values 0.5, 2.5, 4.5, ..., none of them
    in the perturbed band, so the mask does not depend on the generator:
    the four entries at rows 3-4, columns 3-4. *)
Definition fg_center : PointPrompt := {| x := 3.5; y := 3.5; label := 1 |}.
Definition fg_negative : PointPrompt := {| x := -1; y := -1; label := 1 |}.
Definition bg_point : PointPrompt := {| x := 10; y := 10; label := 0 |}.
Definition a_box : BoxPrompt := {| x1 := 20; y1 := 20; x2 := 40; y2 := 40 |}.

(** Slice buffers: the base64 of no byte at all, the base64 of one
    float32 element, and a string that is not base64. *)
Definition empty_buffer : string := EmptyString.
Definition one_element_buffer : string := "AAAAAA==".
Definition bad_base64 : string := "A".

Definition request (data : string) (shape : list Z)
    (pts : option (list PointPrompt)) (bxs : option (list BoxPrompt))
    : SegmentationRequest :=
  {| slice_data := data; slice_shape := shape; points := pts; boxes := bxs;
     window_center := None; window_width := None |}.

(** A predictor whose checkpoint exists but whose weights failed to load,
    and one that loaded. *)
Definition failed_predictor : option MedSAM3Predictor :=
  lifespan true (Some "model.ckpt"%string) true true "cpu" Sam3ImportError.

Definition loaded_predictor : option MedSAM3Predictor :=
  lifespan true (Some "model.ckpt"%string) true true "cpu" WeightsLoaded.

Definition checker : mask :=
  Mask 2 3 [[true; true; false]; [false; true; true]].

(** What the service answers in demo mode, without cv2, to a 7 x 7 slice
    prompted at its center. *)
Definition center_response : SegmentationResponse :=
  {| mask_rle := [(0, 24); (1, 2); (0, 5); (1, 2); (0, 16)];
     mask_shape := [7; 7];
     confidence := 0.75;
     contours := Some [] |}.

(** The mask behind [center_response]. *)
Definition center_mask : mask :=
  let o := [false; false; false; false; false; false; false] in
  let c := [false; false; false; true; true; false; false] in
  Mask 7 7 [o; o; o; c; c; o; o].

(** A second one-element buffer: the float32 1.0. *)
Definition unit_element_buffer : string := "AACAPw==".

(** The demo answer for a 5 x 5 slice, without cv2. *)
Definition small_response : SegmentationResponse :=
  {| mask_rle := [(0, 25)];
     mask_shape := [5; 5];
     confidence := 0.75;
     contours := Some [] |}.

(** The model-path answer for a 1 x 1 slice, without cv2. *)
Definition pixel_response : SegmentationResponse :=
  {| mask_rle := [(0, 1)];
     mask_shape := [1; 1];
     confidence := 0.85;
     contours := Some [] |}.

(** A model with one trainable and one frozen parameter tensor. *)
Definition two_tensors (mdl : Sam3Model) : list (Z * bool) :=
  [(10, true); (5, false)].

Definition loaded_object : MedSAM3Predictor :=
  {| device := "cpu"; model := Some Sam3ImageModel;
     predictor_model_loaded := true |}.

End Examples.

(** ** The service, over the libraries it calls *)

Section Service.

(** State of numpy's global generator, [np.random.seed] on a seed in range,
    and [np.random.random] for [n] values. *)
Variable rng : Type.
Variable mt_seed : Z -> rng.
Variable random_sample : rng -> nat -> list float * rng.

(** [base64.b64decode]. *)
Variable b64decode : string -> result (list Byte.byte).

(** [cv2.findContours(mask_uint8, RETR_EXTERNAL, CHAIN_APPROX_SIMPLE)[0]],
    each contour a list of integer points; [None] when [import cv2]
    fails. *)
Variable cv2 : option (list (list Z) -> result (list (list (Z * Z)))).

(** *** main.py: decode_slice *)

(** A decoded float32 array: its shape and raw buffer (four bytes per
    element). *)
Record ndarray : Type := {
  nd_shape : list Z;
  nd_buffer : list Byte.byte
}.

Definition nd_size (buf : list Byte.byte) : Z := Z.of_nat (length buf / 4).

(** [np.frombuffer(decoded, dtype=np.float32)]: the buffer size must be a
    multiple of the element size. *)
Definition np_frombuffer (decoded : list Byte.byte) : result ndarray :=
  if (length decoded mod 4 =? 0)%nat
  then Return {| nd_shape := [nd_size decoded]; nd_buffer := decoded |}
  else Raise ValueError.

(** [arr.reshape(shape)]: at most one dimension may be [-1] (inferred), no
    other may be negative, and the element count must be kept. *)
Definition np_reshape (arr : ndarray) (shape : list Z) : result ndarray :=
  let size := nd_size (nd_buffer arr) in
  let known := filter (fun d => negb (d =? -1)) shape in
  let unknown := (length shape - length known)%nat in
  let p := fold_right Z.mul 1 known in
  if existsb (fun d => d <? 0) known then Raise ValueError
  else
    match unknown with
    | O =>
        if p =? size
        then Return {| nd_shape := shape; nd_buffer := nd_buffer arr |}
        else Raise ValueError
    | S O =>
        if (0 <? p) && (size mod p =? 0)
        then Return {| nd_shape :=
                         map (fun d => if d =? -1 then size / p else d) shape;
                       nd_buffer := nd_buffer arr |}
        else Raise ValueError
    | _ => Raise ValueError
    end.

Definition decode_slice (data : string) (shape : list Z) : result ndarray :=
  try_except_Exception
    (decoded <- b64decode data ;;
     arr <- np_frombuffer decoded ;;
     np_reshape arr shape)
    (fun _ => HTTPException 400).

(** A malformed slice buffer: base64 that does not decode, a byte count
    that is no whole number of float32 elements, or an element count that
    the declared shape does not fit. *)
Definition malformed (data : string) (shape : list Z) : bool :=
  match b64decode data with
  | Raise _ => true
  | Return decoded =>
      match np_frombuffer decoded with
      | Raise _ => true
      | Return arr =>
          match np_reshape arr shape with
          | Raise _ => true
          | Return _ => false
          end
      end
  end.

(** *** main.py: generate_demo_mask *)

Definition generate_demo_mask (st : rng) (shape : list Z)
    (points : option (list PointPrompt)) (boxes : option (list BoxPrompt))
    : result mask * rng :=
  match shape with
  | [H; W] =>
      if np_zeros_ok H W then
        let c := demo_center H W points boxes in
        let rx := Z.min W H / 6 in
        let ry := Z.min W H / 7 in
        match py_int (seed_value c) with
        | Raise e => (Raise e, st)
        | Return seed =>
            if seed_ok seed then
              let (u, st') := random_sample (mt_seed seed) (Z.to_nat (H * W)) in
              (Return
                 (np_grid H W (fun yi xi =>
                    let dist :=
                      ellipse_dist (fst c) (snd c) rx ry
                                   (Z.of_nat xi) (Z.of_nat yi) in
                    let noise :=
                      (nth (yi * Z.to_nat W + xi) u 0 * 0.3)%float in
                    if ((0.7 <? dist) && (dist <? 1.3))%float
                    then (dist + noise <=? 1.1)%float
                    else (dist <=? 1.0)%float)),
               st')
            else (Raise ValueError, st)
        end
      else (Raise ValueError, st)
  | _ => (Raise ValueError, st)
  end.

(** *** predictor.py: _generate_demo_mask and segment_slice *)

Definition _generate_demo_mask (st : rng) (shape : list Z) (prompt : Prompt)
    : result mask * rng :=
  match shape with
  | [H; W] =>
      if np_zeros_ok H W then
        match predictor_center H W prompt with
        | Raise e => (Raise e, st)
        | Return c =>
            let rx := Z.min H W / 6 in
            let ry := Z.min H W / 7 in
            match py_int (seed_value c) with
            | Raise e => (Raise e, st)
            | Return v =>
                let seed := v mod 2 ^ 31 in
                if seed_ok seed then
                  let (u, st') :=
                    random_sample (mt_seed seed) (Z.to_nat (H * W)) in
                  (Return
                     (np_grid H W (fun yi xi =>
                        let dist :=
                          ellipse_dist (fst c) (snd c) rx ry
                                       (Z.of_nat xi) (Z.of_nat yi) in
                        let noise :=
                          (nth (yi * Z.to_nat W + xi) u 0 * 0.25)%float in
                        if ((0.75 <? dist) && (dist <? 1.25))%float
                        then (dist + noise <=? 1.1)%float
                        else (dist <=? 1.0)%float)),
                   st')
                else (Raise ValueError, st)
            end
        end
      else (Raise ValueError, st)
  | _ => (Raise ValueError, st)
  end.

(** [MedSAM3Predictor.segment_slice]: both branches synthesize ("Real
    inference would go here"). *)
Definition predictor_segment_slice (self : MedSAM3Predictor) (st : rng)
    (slice : ndarray) (prompt : Prompt)
    (window_center window_width : option float) : result mask * rng :=
  let original_shape := firstn 2 (nd_shape slice) in
  if negb (predictor_model_loaded self)
     || match model self with None => true | Some _ => false end
  then _generate_demo_mask st original_shape prompt
  else _generate_demo_mask st original_shape prompt.

(** *** main.py: find_contours *)

(** [contour.squeeze().astype(float).tolist()] and the wrapping of a
    single point; indexing an empty list is an [IndexError]. *)
Definition contour_points (contour : list (Z * Z)) : result polygon :=
  let pts :=
    map (fun p => (float_of_int (fst p), float_of_int (snd p))) contour in
  match pts with
  | [] => Raise IndexError
  | [p] => Return [p]
  | _ => Return pts
  end.

Fixpoint contours_result (cs : list (list (Z * Z))) : result (list polygon) :=
  match cs with
  | [] => Return []
  | c :: t =>
      pts <- contour_points c ;;
      rest <- contours_result t ;;
      Return (pts :: rest)
  end.

(** [mask.astype(np.uint8) * 255]. *)
Definition mask_uint8 (m : mask) : list (list Z) :=
  map (map (fun b => (astype_uint8 b * 255) mod 256)) (mask_rows m).

Definition find_contours (m : mask) : result (list polygon) :=
  match cv2 with
  | Some findContours =>
      traced <- findContours (mask_uint8 m) ;;
      contours_result traced
  | None => Return []
  end.

(** *** main.py: segment_slice *)

Definition build_prompt (request : SegmentationRequest) : Prompt :=
  {| prompt_points :=
       if truthy (points request)
       then option_map (map (fun p => (x p, y p))) (points request)
       else None;
     prompt_labels :=
       if truthy (points request)
       then option_map (map label) (points request)
       else None;
     prompt_boxes :=
       if truthy (boxes request)
       then option_map
              (map (fun b => (x1 b, y1 b, x2 b, y2 b))) (boxes request)
       else None |}.

Definition segment_slice (predictor : option MedSAM3Predictor) (st : rng)
    (request : SegmentationRequest) : result SegmentationResponse * rng :=
  if negb (truthy (points request)) && negb (truthy (boxes request))
  then (Raise (HTTPException 400), st)
  else
    let shape := slice_shape request in
    let demo_mode : result (mask * float) * rng :=
      let (r, st') :=
        generate_demo_mask st shape (points request) (boxes request) in
      (m <- r ;; Return (m, 0.75%float), st') in
    let inferred : result (mask * float) * rng :=
      match predictor with
      | Some p =>
          if predictor_model_loaded p then
            let (body, st') :=
              match decode_slice (slice_data request) shape with
              | Raise e => (Raise e, st)
              | Return slice =>
                  let (r, st') :=
                    predictor_segment_slice p st slice (build_prompt request)
                      (window_center request) (window_width request) in
                  (m <- r ;; Return (m, 0.85%float), st')
              end in
            (try_except_Exception body (fun _ => HTTPException 500), st')
          else demo_mode
      | None => demo_mode
      end in
    let (r, st') := inferred in
    (mc <- r ;;
     let rle := mask_to_rle (fst mc) in
     cs <- find_contours (fst mc) ;;
     Return {| mask_rle := rle;
               mask_shape := [Z.of_nat (mask_H (fst mc));
                              Z.of_nat (mask_W (fst mc))];
               confidence := snd mc;
               contours := Some cs |},
     st').


(** * Properties *)

(** ** The mask codec *)

Lemma uint8_sub_zero a b :
  is_uint8 a -> is_uint8 b -> (uint8_sub b a =? 0) = (a =? b).
Proof.
  unfold is_uint8, uint8_sub. intros Ha Hb.
  destruct (Z.eqb_spec a b) as [->|Hne].
  - rewrite Z.sub_diag. reflexivity.
  - apply Z.eqb_neq. intro Hm.
    apply Z.mod_divide in Hm; [|lia].
    destruct Hm as [k Hk]. lia.
Qed.

Lemma where_shift i l :
  map (fun k => (k + 1)%nat) (np_where_nonzero i l) = np_where_nonzero (S i) l.
Proof.
  revert i. induction l as [|c t IH]; intro i; simpl; [reflexivity|].
  destruct (c =? 0); simpl; rewrite IH; [reflexivity|].
  f_equal. lia.
Qed.

(** The index-based construction of the runs, started in the middle of the
    vector: [pre] has been scanned, the run in progress began at [s]. *)
Lemma encode_runs_from t : forall pre a s,
  Forall is_uint8 (a :: t) ->
  (s <= length pre)%nat ->
  nth s (pre ++ a :: t) 0 = a ->
  let F := pre ++ a :: t in
  let ci := np_where_nonzero (S (length pre)) (np_diff (a :: t)) in
  map (fun se : nat * nat =>
         let (start, end_) := se in
         (nth start F 0, Z.of_nat end_ - Z.of_nat start))
      (combine (s :: ci) (ci ++ [length F]))
  = runs_from a (S (length pre) - s) t.
Proof.
  induction t as [|b t IH]; intros pre a s Hr Hs Hn; cbn zeta.
  - cbn [np_diff np_where_nonzero combine app map runs_from].
    rewrite Hn, length_app. cbn [length]. do 2 f_equal. lia.
  - inversion Hr as [|? ? Ha Hr']; subst.
    assert (Hb : is_uint8 b) by (inversion Hr'; assumption).
    change (np_diff (a :: b :: t)) with (uint8_sub b a :: np_diff (b :: t)).
    cbn [np_where_nonzero runs_from].
    rewrite (uint8_sub_zero a b Ha Hb).
    assert (HF : pre ++ a :: b :: t = (pre ++ [a]) ++ b :: t)
      by (rewrite <- app_assoc; reflexivity).
    assert (Hl : length (pre ++ [a]) = S (length pre))
      by (rewrite length_app; simpl; lia).
    destruct (Z.eqb_spec a b) as [->|Hne].
    + specialize (IH (pre ++ [b]) b s Hr').
      rewrite Hl, <- HF in IH.
      rewrite IH; [|lia|assumption].
      f_equal. lia.
    + cbn [combine app map]. rewrite Hn. f_equal.
      * f_equal. lia.
      * specialize (IH (pre ++ [a]) b (S (length pre)) Hr').
        rewrite Hl, <- HF in IH.
        replace 1%nat with (S (S (length pre)) - S (length pre))%nat by lia.
        rewrite <- IH; [reflexivity|lia|].
        rewrite HF, app_nth2; rewrite Hl; [|lia].
        rewrite Nat.sub_diag. reflexivity.
Qed.

Lemma to_bool_astype b : to_bool (astype_uint8 b) = b.
Proof. destruct b; reflexivity. Qed.

Lemma astype_is_uint8 (l : list bool) : Forall is_uint8 (map astype_uint8 l).
Proof.
  induction l as [|b l IH]; constructor; [|exact IH].
  unfold is_uint8; destruct b; simpl; lia.
Qed.

(** The encoder emits the maximal constant runs of the flattened mask. *)
Lemma mask_to_rle_flat (m : mask) :
  mask_to_rle m =
  match map astype_uint8 (flatten m) with
  | [] => []
  | a :: t => runs_from a 1 t
  end.
Proof.
  unfold mask_to_rle.
  pose proof (astype_is_uint8 (flatten m)) as Hr.
  destruct (map astype_uint8 (flatten m)) as [|a t] eqn:E; [reflexivity|].
  cbn [length Nat.eqb]. unfold change_indices. rewrite where_shift.
  exact (encode_runs_from t [] a 0%nat Hr (Nat.le_refl _) eq_refl).
Qed.

Lemma expand_runs_from l : forall v c,
  rle_expand (runs_from v c l) = repeat (to_bool v) c ++ map to_bool l.
Proof.
  induction l as [|b t IH]; intros v c; cbn [runs_from].
  - unfold rle_expand. cbn. rewrite Nat2Z.id. reflexivity.
  - destruct (Z.eqb_spec v b) as [->|Hne].
    + rewrite IH. cbn [map].
      change (repeat (to_bool b) (S c)) with (to_bool b :: repeat (to_bool b) c).
      rewrite (repeat_cons c (to_bool b)), <- app_assoc. reflexivity.
    + unfold rle_expand in *. cbn [flat_map fst snd]. rewrite IH, Nat2Z.id.
      reflexivity.
Qed.

Lemma lengths_runs_from l : forall v c,
  sum_lengths (runs_from v c l) = Z.of_nat (c + length l).
Proof.
  induction l as [|b t IH]; intros v c; cbn [runs_from].
  - unfold sum_lengths. cbn. lia.
  - destruct (v =? b).
    + rewrite IH. cbn [length]. lia.
    + unfold sum_lengths in *. cbn [fold_right snd]. rewrite IH.
      cbn [length]. lia.
Qed.

Lemma positive_runs_from l : forall v c, (1 <= c)%nat ->
  Forall (fun r : run => 1 <= snd r) (runs_from v c l).
Proof.
  induction l as [|b t IH]; intros v c Hc; cbn [runs_from].
  - constructor; [cbn; lia|constructor].
  - destruct (v =? b).
    + apply IH. lia.
    + constructor; [cbn; lia|]. apply IH. lia.
Qed.

Lemma head_runs_from l v c :
  exists n rest, runs_from v c l = (v, n) :: rest.
Proof.
  revert v c. induction l as [|b t IH]; intros v c; cbn [runs_from].
  - eauto.
  - destruct (v =? b); [apply IH|eauto].
Qed.

Lemma canonical_runs_from l : forall v c,
  no_adjacent_equal (runs_from v c l) = true.
Proof.
  induction l as [|b t IH]; intros v c; cbn [runs_from].
  - reflexivity.
  - destruct (Z.eqb_spec v b) as [->|Hne]; [apply IH|].
    destruct (head_runs_from t b 1) as (n & rest & E).
    specialize (IH b 1%nat). rewrite E in *.
    change (negb (v =? b) && no_adjacent_equal ((b, n) :: rest) = true).
    rewrite IH. apply Z.eqb_neq in Hne. rewrite Hne. reflexivity.
Qed.

Lemma expand_mask_to_rle (m : mask) : rle_expand (mask_to_rle m) = flatten m.
Proof.
  rewrite mask_to_rle_flat.
  destruct (flatten m) as [|b bs]; [reflexivity|].
  cbn [map]. rewrite expand_runs_from. cbn [repeat app].
  rewrite to_bool_astype, map_map. f_equal.
  rewrite <- (map_id bs) at 2. apply map_ext. apply to_bool_astype.
Qed.

Lemma length_flatten rows W :
  Forall (fun r : list bool => length r = W) rows ->
  length (concat rows) = (length rows * W)%nat.
Proof.
  induction 1 as [|r rows Hr _ IH]; [reflexivity|].
  cbn [concat length]. rewrite length_app, IH, Hr. reflexivity.
Qed.

Lemma reshape_concat rows W :
  Forall (fun r : list bool => length r = W) rows ->
  reshape (length rows) W (concat rows) = rows.
Proof.
  induction 1 as [|r rows Hr _ IH]; [reflexivity|].
  cbn [concat length reshape].
  rewrite <- Hr, firstn_app, Nat.sub_diag, firstn_all, firstn_O, app_nil_r.
  rewrite skipn_app, Nat.sub_diag, skipn_all, skipn_O. cbn [app].
  rewrite Hr, IH. reflexivity.
Qed.

Example mask_to_rle_checker :
  mask_to_rle Examples.checker = [(1, 2); (0, 2); (1, 2)].
Proof. reflexivity. Qed.

Example mask_to_rle_all_zero :
  mask_to_rle (Mask 2 2 [[false; false]; [false; false]]) = [(0, 4)].
Proof. reflexivity. Qed.

Example mask_to_rle_single :
  mask_to_rle (Mask 1 1 [[true]]) = [(1, 1)].
Proof. reflexivity. Qed.

Example mask_to_rle_zero_size :
  mask_to_rle (Mask 0 0 []) = [] /\ mask_to_rle (Mask 3 0 [[]; []; []]) = [].
Proof. split; reflexivity. Qed.

Example decode_zero_size :
  decode (mask_to_rle (Mask 3 0 [[]; []; []])) 3 0
  = Some (Mask 3 0 [[]; []; []]).
Proof. reflexivity. Qed.

Example decode_refuses_wrong_sum : decode [(1, 2); (0, 3)] 2 3 = None.
Proof. reflexivity. Qed.

(** C1: RLE round trip.  For every mask [m] with [H] rows of [W] entries
    (zero-size shapes, (1,1), all-zero and all-one masks included),
    decoding the run-length encoding made by [mask_to_rle] at the shape of
    [m] gives back exactly [m]. *)
Theorem rle_round_trip (m : mask) :
  wf_mask m -> decode (mask_to_rle m) (mask_H m) (mask_W m) = Some m.
Proof.
  intros [HH HW]. unfold decode.
  rewrite expand_mask_to_rle. unfold flatten.
  rewrite (length_flatten _ _ HW), HH, Nat.eqb_refl.
  rewrite <- HH at 2. rewrite (reshape_concat _ _ HW).
  destruct m; reflexivity.
Qed.

(** C7: RLE canonical form.  The runs made by [mask_to_rle] never have two
    adjacent runs of equal value, every run has length at least 1, the
    lengths sum to [H*W], and a mask with no element gives no run. *)
Theorem rle_canonical_form (m : mask) :
  wf_mask m ->
  no_adjacent_equal (mask_to_rle m) = true /\
  Forall (fun r : run => 1 <= snd r) (mask_to_rle m) /\
  sum_lengths (mask_to_rle m) = Z.of_nat (mask_H m * mask_W m) /\
  ((mask_H m * mask_W m = 0)%nat -> mask_to_rle m = []).
Proof.
  intros [HH HW].
  pose proof (length_flatten _ _ HW) as HL. rewrite HH in HL.
  fold (flatten m) in HL.
  rewrite mask_to_rle_flat.
  rewrite <- HL, <- (length_map astype_uint8).
  destruct (map astype_uint8 (flatten m)) as [|a t].
  - repeat split; constructor.
  - repeat split.
    + apply canonical_runs_from.
    + apply positive_runs_from. lia.
    + rewrite lengths_runs_from. reflexivity.
    + discriminate.
Qed.

(** ** The synthesizers *)

(** Splitting a point list at its first foreground point. *)
Lemma filter_first_fg (pre post : list PointPrompt) (p : PointPrompt) :
  Forall (fun q => label q <> 1) pre -> label p = 1 ->
  exists rest,
    filter (fun q => label q =? 1) (pre ++ p :: post) = p :: rest.
Proof.
  intros Hpre Hp. induction Hpre as [|q pre Hq _ IH]; cbn [app filter].
  - rewrite Hp. cbn. eauto.
  - apply Z.eqb_neq in Hq. rewrite Hq. exact IH.
Qed.

Lemma filter_no_fg (ps : list PointPrompt) :
  Forall (fun q => label q <> 1) ps ->
  filter (fun q => label q =? 1) ps = [].
Proof.
  induction 1 as [|q ps Hq _ IH]; cbn [filter]; [reflexivity|].
  apply Z.eqb_neq in Hq. rewrite Hq. exact IH.
Qed.

(** The predictor's comprehension over the endpoint's parallel lists is
    the endpoint's own filter. *)
Lemma fg_points_from_labels (ps : list PointPrompt) : forall done,
  fg_points_from (done ++ map label ps) (length done)
                 (map (fun p => (x p, y p)) ps)
  = Return (map (fun p => (x p, y p)) (filter (fun p => label p =? 1) ps)).
Proof.
  induction ps as [|p ps IH]; intro done; cbn [map fg_points_from filter].
  - reflexivity.
  - rewrite nth_error_app2, Nat.sub_diag by lia. cbn [nth_error].
    specialize (IH (done ++ [label p])).
    rewrite <- app_assoc, length_app in IH. cbn [app length] in IH.
    rewrite Nat.add_1_r in IH. rewrite IH. cbn [bind].
    destruct (label p =? 1); reflexivity.
Qed.

(** Both synthesizers derive the same center from a request. *)
Lemma predictor_center_agrees (H W : Z) (request : SegmentationRequest) :
  predictor_center H W (build_prompt request)
  = Return (demo_center H W (points request) (boxes request)).
Proof.
  unfold predictor_center, build_prompt, demo_center.
  destruct (points request) as [[|p ps]|];
    cbn [truthy option_map prompt_points prompt_labels prompt_boxes].
  - destruct (boxes request) as [[|b bs]|]; reflexivity.
  - pose proof (fg_points_from_labels (p :: ps) []) as E.
    cbn [app length] in E. rewrite E. cbn [bind].
    destruct (filter (fun q => label q =? 1) (p :: ps)); reflexivity.
  - destruct (boxes request) as [[|b bs]|]; reflexivity.
Qed.

(** C5 (as the code has it): the center is the first foreground point when
    the point list has one; the slice center [(W/2, H/2)] when the point
    list is non-empty without a foreground point, whatever the boxes; the
    centroid of the first box when the point list is empty or absent and a
    box exists; the slice center otherwise.  The predictor module derives
    the same center from the prompt dictionary of the request. *)
Theorem demo_center_selection (H W : Z) :
  (forall pre p post boxes,
      Forall (fun q => label q <> 1) pre -> label p = 1 ->
      demo_center H W (Some (pre ++ p :: post)) boxes = (x p, y p)) /\
  (forall q qs boxes,
      Forall (fun q => label q <> 1) (q :: qs) ->
      demo_center H W (Some (q :: qs)) boxes
      = (int_truediv_2 W, int_truediv_2 H)) /\
  (forall points box rest,
      truthy points = false ->
      demo_center H W points (Some (box :: rest))
      = ((x1 box + x2 box) / 2, (y1 box + y2 box) / 2)%float) /\
  (forall points boxes,
      truthy points = false -> truthy boxes = false ->
      demo_center H W points boxes = (int_truediv_2 W, int_truediv_2 H)) /\
  (forall request,
      predictor_center H W (build_prompt request)
      = Return (demo_center H W (points request) (boxes request))).
Proof.
  repeat split.
  - intros pre p post bxs Hpre Hp.
    destruct (filter_first_fg pre post p Hpre Hp) as [rest E].
    unfold demo_center.
    destruct (pre ++ p :: post) as [|a l] eqn:El.
    + destruct pre; discriminate.
    + rewrite E. reflexivity.
  - intros q qs bxs Hbg. unfold demo_center.
    rewrite (filter_no_fg _ Hbg). reflexivity.
  - intros pts box rest Hp.
    destruct pts as [[|a l]|]; try discriminate; reflexivity.
  - intros pts bxs Hp Hb.
    destruct pts as [[|a l]|]; try discriminate;
      destruct bxs as [[|b l']|]; try discriminate; reflexivity.
  - intro request. apply predictor_center_agrees.
Qed.

(** The endpoint-layer synthesizer never reads the generator state it is
    handed: it seeds before drawing. *)
Lemma generate_demo_mask_reseeds (st1 st2 : rng) (shape : list Z)
    (pts : option (list PointPrompt)) (bxs : option (list BoxPrompt)) :
  fst (generate_demo_mask st1 shape pts bxs)
  = fst (generate_demo_mask st2 shape pts bxs).
Proof.
  unfold generate_demo_mask.
  destruct shape as [|H [|W [|? ?]]]; try reflexivity.
  destruct (np_zeros_ok H W); [|reflexivity].
  destruct (py_int _) as [seed|e]; [|reflexivity].
  destruct (seed_ok seed); [|reflexivity].
  destruct (random_sample _ _). reflexivity.
Qed.

Lemma _generate_demo_mask_reseeds (st1 st2 : rng) (shape : list Z)
    (prompt : Prompt) :
  fst (_generate_demo_mask st1 shape prompt)
  = fst (_generate_demo_mask st2 shape prompt).
Proof.
  unfold _generate_demo_mask.
  destruct shape as [|H [|W [|? ?]]]; try reflexivity.
  destruct (np_zeros_ok H W); [|reflexivity].
  destruct (predictor_center H W prompt) as [c|e]; [|reflexivity].
  destruct (py_int _) as [seed|e]; [|reflexivity].
  destruct (seed_ok _); [|reflexivity].
  destruct (random_sample _ _). reflexivity.
Qed.

(** C8: demo determinism.  Each synthesizer reseeds the generator from the
    prompt-derived center on every call, so its output (a mask or the
    exception raised) is the same whatever state the global generator was
    left in: two calls with identical shape and prompts agree bit for
    bit. *)
Theorem demo_determinism :
  (forall st1 st2 shape pts bxs,
      fst (generate_demo_mask st1 shape pts bxs)
      = fst (generate_demo_mask st2 shape pts bxs)) /\
  (forall st1 st2 shape prompt,
      fst (_generate_demo_mask st1 shape prompt)
      = fst (_generate_demo_mask st2 shape prompt)).
Proof.
  split.
  - exact generate_demo_mask_reseeds.
  - exact _generate_demo_mask_reseeds.
Qed.

(** C10: seed domain.  When [int(cx*100 + cy*10)] is negative or at least
    [2^32], the endpoint-layer synthesizer returns no mask: seeding raises
    [ValueError] (when [np.zeros] has not already refused the shape), and
    a demo-mode [segment_slice] with prompts raises it (status 500).  The
    predictor-module synthesizer reduces the value modulo [2^31], which is
    always a valid seed: on a shape [np.zeros] accepts, whenever its
    center and [int(...)] are computed it returns a mask. *)
Theorem seed_domain (st : rng) (H W : Z)
    (pts : option (list PointPrompt)) (bxs : option (list BoxPrompt))
    (v : Z) :
  py_int (seed_value (demo_center H W pts bxs)) = Return v ->
  v < 0 \/ 2 ^ 32 <= v ->
  generate_demo_mask st [H; W] pts bxs = (Raise ValueError, st) /\
  (forall predictor request,
      model_path predictor = false ->
      slice_shape request = [H; W] ->
      points request = pts ->
      boxes request = bxs ->
      truthy pts || truthy bxs = true ->
      segment_slice predictor st request = (Raise ValueError, st) /\
      http_status (fst (segment_slice predictor st request)) = 500) /\
  (forall prompt c v',
      predictor_center H W prompt = Return c ->
      py_int (seed_value c) = Return v' ->
      seed_ok (v' mod 2 ^ 31) = true /\
      (np_zeros_ok H W = true ->
       exists m st', _generate_demo_mask st [H; W] prompt = (Return m, st'))).
Proof.
  intros Hv Hbad.
  assert (Hseed : seed_ok v = false).
  { unfold seed_ok. destruct Hbad; apply andb_false_iff; [left|right].
    - apply Z.leb_gt. assumption.
    - apply Z.ltb_ge. assumption. }
  assert (G : generate_demo_mask st [H; W] pts bxs = (Raise ValueError, st)).
  { unfold generate_demo_mask. rewrite Hv, Hseed.
    destruct (np_zeros_ok H W); reflexivity. }
  split; [exact G|split].
  - intros predictor request Hp Hs Hpts Hbxs Ht.
    assert (E : segment_slice predictor st request = (Raise ValueError, st)).
    { unfold segment_slice. rewrite Hpts, Hbxs, Hs.
      replace (negb (truthy pts) && negb (truthy bxs)) with false
        by (destruct (truthy pts), (truthy bxs); simpl in *; congruence).
      destruct predictor as [p|]; cbn in Hp; [rewrite Hp|];
        rewrite G; reflexivity. }
    rewrite E. split; reflexivity.
  - intros prompt c v' Hc Hv'.
    assert (Hok : seed_ok (v' mod 2 ^ 31) = true).
    { unfold seed_ok.
      pose proof (Z.mod_pos_bound v' (2 ^ 31) ltac:(lia)) as Hb.
      apply andb_true_iff. split; [apply Z.leb_le|apply Z.ltb_lt]; lia. }
    split; [exact Hok|]. intro Hz.
    unfold _generate_demo_mask. rewrite Hz, Hc. cbn [bind].
    rewrite Hv'. cbv zeta. rewrite Hok.
    destruct (random_sample _ _) as [u st']. eauto.
Qed.

(** ** The endpoints *)

(** What a malformed buffer does to [decode_slice]. *)
Lemma decode_slice_malformed (data : string) (shape : list Z) :
  malformed data shape = true ->
  decode_slice data shape = Raise (HTTPException 400).
Proof.
  unfold malformed, decode_slice. intro Hm.
  destruct (b64decode data) as [decoded|e]; cbn [bind]; [|reflexivity].
  destruct (np_frombuffer decoded) as [arr|e]; cbn [bind]; [|reflexivity].
  destruct (np_reshape arr shape) as [a|e]; [discriminate|reflexivity].
Qed.

(** In demo mode the endpoint is [generate_demo_mask], the codec and the
    contour step, and nothing else. *)
Lemma segment_slice_demo (predictor : option MedSAM3Predictor) (st : rng)
    (request : SegmentationRequest) :
  model_path predictor = false ->
  segment_slice predictor st request =
  if negb (truthy (points request)) && negb (truthy (boxes request))
  then (Raise (HTTPException 400), st)
  else
    let (r, st') :=
      generate_demo_mask st (slice_shape request)
                         (points request) (boxes request) in
    (m <- r ;;
     cs <- find_contours m ;;
     Return {| mask_rle := mask_to_rle m;
               mask_shape := [Z.of_nat (mask_H m); Z.of_nat (mask_W m)];
               confidence := 0.75%float;
               contours := Some cs |},
     st').
Proof.
  intro Hd. unfold segment_slice.
  destruct (negb (truthy (points request)) && negb (truthy (boxes request)));
    [reflexivity|].
  cbv zeta. destruct predictor as [p|]; [cbn in Hd; rewrite Hd|];
    destruct (generate_demo_mask _ _ _ _) as [[m|e] st']; reflexivity.
Qed.

(** C2 (as the code has it): on a malformed slice buffer [decode_slice]
    raises the HTTP 400 error; with a loaded predictor [segment_slice]
    raises an HTTP error; in demo mode [segment_slice] never decodes the
    buffer, so its outcome is the one it has for any other buffer. *)
Theorem malformed_buffer_handling (predictor : option MedSAM3Predictor)
    (st : rng) (request : SegmentationRequest) :
  malformed (slice_data request) (slice_shape request) = true ->
  decode_slice (slice_data request) (slice_shape request)
  = Raise (HTTPException 400) /\
  (model_path predictor = true ->
   exists code,
     segment_slice predictor st request = (Raise (HTTPException code), st)) /\
  (model_path predictor = false ->
   forall data,
     segment_slice predictor st request
     = segment_slice predictor st (with_slice_data request data)).
Proof.
  intro Hm. pose proof (decode_slice_malformed _ _ Hm) as Hd.
  split; [exact Hd|split].
  - intro Hl. destruct predictor as [p|]; [|discriminate]. cbn in Hl.
    unfold segment_slice.
    destruct (negb (truthy (points request)) && negb (truthy (boxes request)));
      [eauto|].
    cbv zeta. rewrite Hl, Hd. cbn. eauto.
  - intros Hl data. rewrite !segment_slice_demo by assumption. reflexivity.
Qed.

(** C9: demo-path noninterference.  With no model loaded the outcome of
    [segment_slice] (the response or the exception) depends on the request
    only through [slice_shape], [points] and [boxes]: requests that agree
    on these give the same outcome whatever their [slice_data] (even
    undecodable) and windows, from any state of the generator. *)
Theorem demo_noninterference (predictor : option MedSAM3Predictor)
    (st1 st2 : rng) (request1 request2 : SegmentationRequest) :
  model_path predictor = false ->
  slice_shape request1 = slice_shape request2 ->
  points request1 = points request2 ->
  boxes request1 = boxes request2 ->
  fst (segment_slice predictor st1 request1)
  = fst (segment_slice predictor st2 request2).
Proof.
  intros Hd Hs Hp Hb. rewrite !segment_slice_demo by assumption.
  rewrite Hs, Hp, Hb.
  destruct (negb (truthy (points request2)) && negb (truthy (boxes request2)));
    [reflexivity|].
  pose proof (generate_demo_mask_reseeds st1 st2 (slice_shape request2)
                (points request2) (boxes request2)) as D.
  destruct (generate_demo_mask st1 _ _ _) as [r1 s1].
  destruct (generate_demo_mask st2 _ _ _) as [r2 s2].
  cbn [fst] in *. rewrite D. reflexivity.
Qed.

(** Every returned response carries the contour list built by
    [find_contours] on the encoded mask. *)
Lemma segment_slice_response (predictor : option MedSAM3Predictor)
    (st : rng) (request : SegmentationRequest)
    (response : SegmentationResponse) :
  fst (segment_slice predictor st request) = Return response ->
  exists m cs,
    find_contours m = Return cs /\
    mask_rle response = mask_to_rle m /\
    contours response = Some cs.
Proof.
  unfold segment_slice.
  destruct (negb (truthy (points request)) && negb (truthy (boxes request)));
    [discriminate|].
  cbv zeta.
  match goal with
  | |- fst (let (r, st') := ?X in _) = _ -> _ =>
      destruct X as [[[m c]|e] st']; cbn [fst bind snd]; [|discriminate]
  end.
  destruct (find_contours m) as [cs|e] eqn:Hc; cbn [bind]; [|discriminate].
  intro E. injection E as <-. exists m, cs. repeat split. exact Hc.
Qed.

(** C3 (as the code has it): every response of [segment_slice] carries the
    [contours] field; it is the empty list when cv2 is unavailable, and
    the list of traced contours (possibly empty) when cv2 is available. *)
Theorem contours_always_present (predictor : option MedSAM3Predictor)
    (st : rng) (request : SegmentationRequest)
    (response : SegmentationResponse) :
  fst (segment_slice predictor st request) = Return response ->
  exists cs,
    contours response = Some cs /\
    (cv2 = None -> cs = []) /\
    (forall findContours, cv2 = Some findContours ->
       exists m traced,
         mask_rle response = mask_to_rle m /\
         findContours (mask_uint8 m) = Return traced /\
         contours_result traced = Return cs).
Proof.
  intro E.
  destruct (segment_slice_response _ _ _ _ E) as (m & cs & Hc & Hr & Hs).
  exists cs. split; [exact Hs|]. unfold find_contours in Hc. split.
  - intro Hn. rewrite Hn in Hc. congruence.
  - intros fc Hf. rewrite Hf in Hc. exists m.
    destruct (fc (mask_uint8 m)) as [traced|e] eqn:Ht; [|discriminate].
    exists traced. repeat split; assumption.
Qed.

(** C6 (as the code has it): a request without any point or box is
    rejected with HTTP 400 before anything is computed (the generator is
    untouched); a request with a point or a box passes validation and
    returns the response envelope whenever mask inference and contour
    extraction raise nothing: the synthesized mask at confidence 0.75 in
    demo mode, the predictor's mask at 0.85 with a loaded model. *)
Theorem prompt_validation (predictor : option MedSAM3Predictor) (st : rng)
    (request : SegmentationRequest) :
  (truthy (points request) = false -> truthy (boxes request) = false ->
   segment_slice predictor st request = (Raise (HTTPException 400), st)) /\
  (truthy (points request) || truthy (boxes request) = true ->
   (forall m st' cs,
      model_path predictor = false ->
      generate_demo_mask st (slice_shape request)
                         (points request) (boxes request) = (Return m, st') ->
      find_contours m = Return cs ->
      segment_slice predictor st request =
      (Return {| mask_rle := mask_to_rle m;
                 mask_shape := [Z.of_nat (mask_H m); Z.of_nat (mask_W m)];
                 confidence := 0.75%float;
                 contours := Some cs |}, st')) /\
   (forall p slice m st' cs,
      predictor = Some p -> predictor_model_loaded p = true ->
      decode_slice (slice_data request) (slice_shape request) = Return slice ->
      predictor_segment_slice p st slice (build_prompt request)
        (window_center request) (window_width request) = (Return m, st') ->
      find_contours m = Return cs ->
      segment_slice predictor st request =
      (Return {| mask_rle := mask_to_rle m;
                 mask_shape := [Z.of_nat (mask_H m); Z.of_nat (mask_W m)];
                 confidence := 0.85%float;
                 contours := Some cs |}, st'))).
Proof.
  split.
  - intros Hp Hb. unfold segment_slice. rewrite Hp, Hb. reflexivity.
  - intro Ht.
    assert (Hv : negb (truthy (points request))
                 && negb (truthy (boxes request)) = false)
      by (destruct (truthy (points request)), (truthy (boxes request));
          simpl in *; congruence).
    split.
    + intros m st' cs Hd Hg Hc. rewrite segment_slice_demo by assumption.
      rewrite Hv, Hg. cbn [bind]. rewrite Hc. reflexivity.
    + intros p slice m st' cs -> Hl Hd Hs Hc. unfold segment_slice.
      rewrite Hv. cbv zeta. rewrite Hl, Hd, Hs.
      cbn [bind try_except_Exception fst snd]. rewrite Hc. reflexivity.
Qed.

(** ** More of the synthesizers *)

Lemma np_grid_wf (H W : Z) (entry : nat -> nat -> bool) :
  wf_mask (np_grid H W entry).
Proof.
  unfold wf_mask, np_grid. cbn [mask_rows mask_H mask_W]. split.
  - rewrite length_map, length_seq. reflexivity.
  - apply Forall_forall. intros r Hr. apply in_map_iff in Hr.
    destruct Hr as (yi & <- & _). rewrite length_map, length_seq. reflexivity.
Qed.

(** What a returned mask of either synthesizer looks like. *)
Lemma generate_demo_mask_grid (st st' : rng) (shape : list Z)
    (pts : option (list PointPrompt)) (bxs : option (list BoxPrompt))
    (m : mask) :
  generate_demo_mask st shape pts bxs = (Return m, st') ->
  exists H W entry,
    shape = [H; W] /\ np_zeros_ok H W = true /\ m = np_grid H W entry.
Proof.
  unfold generate_demo_mask.
  destruct shape as [|H [|W [|? ?]]]; try discriminate.
  destruct (np_zeros_ok H W) eqn:Hz; [|discriminate].
  destruct (py_int _) as [seed|e]; [|discriminate].
  destruct (seed_ok seed); [|discriminate].
  destruct (random_sample _ _) as [u st1]. intro E. injection E as <- _.
  eauto 6.
Qed.

Lemma _generate_demo_mask_grid (st st' : rng) (shape : list Z)
    (prompt : Prompt) (m : mask) :
  _generate_demo_mask st shape prompt = (Return m, st') ->
  exists H W entry,
    shape = [H; W] /\ np_zeros_ok H W = true /\ m = np_grid H W entry.
Proof.
  unfold _generate_demo_mask.
  destruct shape as [|H [|W [|? ?]]]; try discriminate.
  destruct (np_zeros_ok H W) eqn:Hz; [|discriminate].
  destruct (predictor_center H W prompt) as [c|e]; [|discriminate].
  destruct (py_int _) as [seed|e]; [|discriminate].
  destruct (seed_ok _); [|discriminate].
  destruct (random_sample _ _) as [u st1]. intro E. injection E as <- _.
  eauto 6.
Qed.

Lemma np_zeros_ok_nonneg (H W : Z) :
  np_zeros_ok H W = true -> 0 <= H /\ 0 <= W.
Proof.
  unfold np_zeros_ok. intro E.
  apply andb_true_iff in E. destruct E as [E _].
  apply andb_true_iff in E. destruct E as [E1 E2].
  split; apply Z.leb_le; assumption.
Qed.

(** X1: whenever a synthesizer returns a mask for the shape [H, W], the
    mask is a full grid of exactly [H] rows and [W] columns, whatever the
    generator produced. *)
Theorem demo_mask_has_slice_shape (st st' : rng) (H W : Z) (m : mask) :
  (forall pts bxs,
      generate_demo_mask st [H; W] pts bxs = (Return m, st') ->
      wf_mask m /\ Z.of_nat (mask_H m) = H /\ Z.of_nat (mask_W m) = W) /\
  (forall prompt,
      _generate_demo_mask st [H; W] prompt = (Return m, st') ->
      wf_mask m /\ Z.of_nat (mask_H m) = H /\ Z.of_nat (mask_W m) = W).
Proof.
  split.
  - intros pts bxs E.
    destruct (generate_demo_mask_grid _ _ _ _ _ _ E)
      as (H' & W' & entry & Hs & Hz & ->).
    injection Hs as <- <-. apply np_zeros_ok_nonneg in Hz.
    split; [apply np_grid_wf|]. cbn [np_grid mask_H mask_W]. lia.
  - intros prompt E.
    destruct (_generate_demo_mask_grid _ _ _ _ _ E)
      as (H' & W' & entry & Hs & Hz & ->).
    injection Hs as <- <-. apply np_zeros_ok_nonneg in Hz.
    split; [apply np_grid_wf|]. cbn [np_grid mask_H mask_W]. lia.
Qed.

(** ** More of the codec *)

Lemma values_runs_from l : forall v c,
  Forall (fun b => b = 0 \/ b = 1) (v :: l) ->
  Forall (fun r : run => fst r = 0 \/ fst r = 1) (runs_from v c l).
Proof.
  induction l as [|b t IH]; intros v c Hb; cbn [runs_from].
  - inversion Hb; subst. constructor; [assumption|constructor].
  - inversion Hb as [|? ? Hv Ht]; subst.
    destruct (Z.eqb_spec v b) as [->|Hne].
    + apply IH. assumption.
    + constructor; [assumption|]. apply IH. assumption.
Qed.

Lemma astype_is_bit (l : list bool) :
  Forall (fun b => b = 0 \/ b = 1) (map astype_uint8 l).
Proof.
  induction l as [|b l IH]; constructor; [|exact IH].
  destruct b; [right|left]; reflexivity.
Qed.

Lemma runs_from_repeat (v : Z) (n : nat) : forall c,
  runs_from v c (repeat v n) = [(v, Z.of_nat (c + n))].
Proof.
  induction n as [|n IH]; intro c; cbn [repeat runs_from].
  - rewrite Nat.add_0_r. reflexivity.
  - rewrite Z.eqb_refl, IH. do 3 f_equal. lia.
Qed.

Lemma concat_constant (b : bool) (rows : list (list bool)) :
  Forall (Forall (eq b)) rows ->
  concat rows = repeat b (length (concat rows)).
Proof.
  induction 1 as [|r rows Hr _ IH]; [reflexivity|].
  cbn [concat]. rewrite length_app, repeat_app, <- IH. f_equal.
  clear -Hr. induction Hr as [|a r Ha _ IHr]; [reflexivity|].
  cbn [length repeat]. rewrite <- Ha, <- IHr. reflexivity.
Qed.

Lemma constant_mask_runs (m : mask) (b : bool) :
  wf_mask m ->
  Forall (Forall (eq b)) (mask_rows m) ->
  mask_to_rle m =
  if (mask_H m * mask_W m =? 0)%nat then []
  else [(astype_uint8 b, Z.of_nat (mask_H m * mask_W m))].
Proof.
  intros [HH HW] Hb.
  pose proof (length_flatten _ _ HW) as HL. rewrite HH in HL.
  rewrite mask_to_rle_flat. unfold flatten.
  rewrite (concat_constant b _ Hb), HL.
  destruct (mask_H m * mask_W m)%nat as [|n]; [reflexivity|].
  cbn [repeat map Nat.eqb].
  rewrite map_repeat, runs_from_repeat. reflexivity.
Qed.

Lemma concat_all (b : bool) (rows : list (list bool)) :
  Forall (eq b) (concat rows) -> Forall (Forall (eq b)) rows.
Proof.
  induction rows as [|r rows IH]; cbn [concat]; intro Hc; constructor.
  - apply Forall_app in Hc. apply Hc.
  - apply IH. apply Forall_app in Hc. apply Hc.
Qed.

(** X2: a mask with at least one element is encoded as a single run
    exactly when it is constant: an all-zero or all-one grid gives the one
    run [(value, H*W)], and a one-run encoding only comes from a grid whose
    entries all equal the run's value. *)
Theorem mask_to_rle_constant (m : mask) (b : bool) :
  wf_mask m -> (mask_H m * mask_W m <> 0)%nat ->
  (Forall (Forall (eq b)) (mask_rows m) <->
   mask_to_rle m = [(astype_uint8 b, Z.of_nat (mask_H m * mask_W m))]).
Proof.
  intros Hwf Hne. split.
  - intro Hb. rewrite (constant_mask_runs m b Hwf Hb).
    destruct (mask_H m * mask_W m)%nat; [contradiction|reflexivity].
  - intro E. apply concat_all.
    pose proof (expand_mask_to_rle m) as Hx. rewrite E in Hx.
    unfold flatten in Hx. rewrite <- Hx.
    unfold rle_expand. cbn [flat_map fst snd]. rewrite app_nil_r.
    apply Forall_forall. intros a Ha. apply repeat_spec in Ha.
    rewrite Ha. destruct b; reflexivity.
Qed.

(** X3: the encoding loses nothing but the shape: two grids of the same
    shape with the same run-length encoding are the same mask. *)
Theorem mask_to_rle_injective (m1 m2 : mask) :
  wf_mask m1 -> wf_mask m2 ->
  mask_H m1 = mask_H m2 -> mask_W m1 = mask_W m2 ->
  mask_to_rle m1 = mask_to_rle m2 ->
  m1 = m2.
Proof.
  intros [HH1 HW1] [HH2 HW2] HH HW E.
  assert (F : flatten m1 = flatten m2)
    by (rewrite <- (expand_mask_to_rle m1), <- (expand_mask_to_rle m2), E;
        reflexivity).
  pose proof (reshape_concat _ _ HW1) as R1.
  pose proof (reshape_concat _ _ HW2) as R2.
  unfold flatten in F. rewrite F, HH1, HH, HW in R1. rewrite HH2 in R2.
  destruct m1 as [h1 w1 r1], m2 as [h2 w2 r2]. cbn in *. subst.
  congruence.
Qed.

(** The invariants of an encoding, for any well-formed mask. *)
Lemma mask_to_rle_invariants (m : mask) :
  wf_mask m ->
  Forall (fun r : run => fst r = 0 \/ fst r = 1) (mask_to_rle m) /\
  no_adjacent_equal (mask_to_rle m) = true /\
  Forall (fun r : run => 1 <= snd r) (mask_to_rle m) /\
  sum_lengths (mask_to_rle m) = Z.of_nat (mask_H m * mask_W m).
Proof.
  intros [HH HW].
  pose proof (length_flatten _ _ HW) as HL. rewrite HH in HL.
  fold (flatten m) in HL.
  pose proof (astype_is_bit (flatten m)) as Hbit.
  rewrite mask_to_rle_flat.
  rewrite <- HL, <- (length_map astype_uint8).
  destruct (map astype_uint8 (flatten m)) as [|a t].
  - repeat split; constructor.
  - repeat split.
    + apply values_runs_from. assumption.
    + apply canonical_runs_from.
    + apply positive_runs_from. lia.
    + rewrite lengths_runs_from. reflexivity.
Qed.

(** ** Slices too small for the ellipse *)

Lemma div_by_zero_radius (t : float) :
  Prim2SF (t / float_of_int 0) = S754_nan \/
  exists s, Prim2SF (t / float_of_int 0) = S754_infinity s.
Proof.
  rewrite div_spec.
  change (Prim2SF (float_of_int 0)) with (S754_zero false).
  destruct (Prim2SF t) as [s|s| |s m e]; cbn; eauto.
Qed.

Lemma square_nan_or_pinf (q : float) :
  (Prim2SF q = S754_nan \/ exists s, Prim2SF q = S754_infinity s) ->
  nan_or_pinf (q * q).
Proof.
  unfold nan_or_pinf. rewrite mul_spec.
  intros [->|[s ->]]; cbn; [left; reflexivity|right].
  destruct s; reflexivity.
Qed.

Lemma add_nan_or_pinf (a b : float) :
  nan_or_pinf b -> nan_or_pinf (a + b).
Proof.
  unfold nan_or_pinf. rewrite add_spec.
  intros [->| ->]; destruct (Prim2SF a) as [s|s| |s m e]; cbn; auto;
    destruct s; auto.
Qed.

Lemma nan_or_pinf_outside (d : float) :
  nan_or_pinf d ->
  (d <? 1.3)%float = false /\ (d <? 1.25)%float = false /\
  (d <=? 1.0)%float = false.
Proof.
  unfold nan_or_pinf. rewrite !ltb_spec, leb_spec.
  intros [->| ->]; repeat split; reflexivity.
Qed.

(** With [ry = 0] every entry of the distance field is NaN or infinite. *)
Lemma ellipse_dist_zero_radius (cx cy : float) (rx xg yg : Z) :
  nan_or_pinf (ellipse_dist cx cy rx 0 xg yg).
Proof.
  unfold ellipse_dist. cbv zeta.
  apply add_nan_or_pinf, square_nan_or_pinf, div_by_zero_radius.
Qed.

Lemma np_grid_all_false (H W : Z) (entry : nat -> nat -> bool) :
  (forall yi xi, entry yi xi = false) ->
  Forall (Forall (eq false)) (mask_rows (np_grid H W entry)).
Proof.
  intro He. cbn [np_grid mask_rows].
  apply Forall_forall. intros r Hr. apply in_map_iff in Hr.
  destruct Hr as (yi & <- & _).
  apply Forall_forall. intros b Hb. apply in_map_iff in Hb.
  destruct Hb as (xi & <- & _). symmetry. apply He.
Qed.

Lemma small_side_zero_radius (a b : Z) :
  0 <= a -> 0 <= b -> Z.min a b < 7 -> Z.min a b / 7 = 0.
Proof. intros. apply Z.div_small. lia. Qed.

Lemma generate_demo_mask_small (st st' : rng) (H W : Z) (m : mask)
    (pts : option (list PointPrompt)) (bxs : option (list BoxPrompt)) :
  Z.min H W < 7 ->
  generate_demo_mask st [H; W] pts bxs = (Return m, st') ->
  Forall (Forall (eq false)) (mask_rows m).
Proof.
  intro Hsmall. unfold generate_demo_mask.
  destruct (np_zeros_ok H W) eqn:Hz; [|discriminate].
  destruct (np_zeros_ok_nonneg _ _ Hz) as [HH HW].
  destruct (py_int _) as [seed|e]; [|discriminate].
  destruct (seed_ok seed); [|discriminate].
  destruct (random_sample _ _) as [u st1]. intro E. injection E as <- _.
  apply np_grid_all_false. intros yi xi. cbv zeta.
  rewrite (small_side_zero_radius W H) by lia.
  destruct (nan_or_pinf_outside _
              (ellipse_dist_zero_radius
                 (fst (demo_center H W pts bxs))
                 (snd (demo_center H W pts bxs))
                 (Z.min W H / 6) (Z.of_nat xi) (Z.of_nat yi)))
    as (-> & _ & ->).
  rewrite andb_false_r. reflexivity.
Qed.

Lemma _generate_demo_mask_small (st st' : rng) (H W : Z) (m : mask)
    (prompt : Prompt) :
  Z.min H W < 7 ->
  _generate_demo_mask st [H; W] prompt = (Return m, st') ->
  Forall (Forall (eq false)) (mask_rows m).
Proof.
  intro Hsmall. unfold _generate_demo_mask.
  destruct (np_zeros_ok H W) eqn:Hz; [|discriminate].
  destruct (np_zeros_ok_nonneg _ _ Hz) as [HH HW].
  destruct (predictor_center H W prompt) as [c|e]; [|discriminate].
  destruct (py_int _) as [seed|e]; [|discriminate].
  destruct (seed_ok _); [|discriminate].
  destruct (random_sample _ _) as [u st1]. intro E. injection E as <- _.
  apply np_grid_all_false. intros yi xi. cbv zeta.
  rewrite (small_side_zero_radius H W) by lia.
  destruct (nan_or_pinf_outside _
              (ellipse_dist_zero_radius (fst c) (snd c)
                 (Z.min H W / 6) (Z.of_nat xi) (Z.of_nat yi)))
    as (_ & -> & ->).
  rewrite andb_false_r. reflexivity.
Qed.

(** ** More of the endpoints *)

Lemma predictor_segment_slice_demo (self : MedSAM3Predictor) (st : rng)
    (slice : ndarray) (prompt : Prompt) (wc ww : option float) :
  predictor_segment_slice self st slice prompt wc ww
  = _generate_demo_mask st (firstn 2 (nd_shape slice)) prompt.
Proof.
  unfold predictor_segment_slice.
  destruct (negb (predictor_model_loaded self) || _); reflexivity.
Qed.

(** On the model path the endpoint is [decode_slice], the predictor, the
    codec and the contour step, under the handler that turns every
    exception of the first two into a 500. *)
Lemma segment_slice_model (predictor : option MedSAM3Predictor) (st : rng)
    (request : SegmentationRequest) :
  model_path predictor = true ->
  segment_slice predictor st request =
  if negb (truthy (points request)) && negb (truthy (boxes request))
  then (Raise (HTTPException 400), st)
  else
    match decode_slice (slice_data request) (slice_shape request) with
    | Raise _ => (Raise (HTTPException 500), st)
    | Return slice =>
        let (r, st') :=
          _generate_demo_mask st (firstn 2 (nd_shape slice))
                              (build_prompt request) in
        (m <- try_except_Exception r (fun _ => HTTPException 500) ;;
         cs <- find_contours m ;;
         Return {| mask_rle := mask_to_rle m;
                   mask_shape := [Z.of_nat (mask_H m); Z.of_nat (mask_W m)];
                   confidence := 0.85%float;
                   contours := Some cs |},
         st')
    end.
Proof.
  intro Hl. destruct predictor as [p|]; [|discriminate]. cbn in Hl.
  unfold segment_slice.
  destruct (negb (truthy (points request)) && negb (truthy (boxes request)));
    [reflexivity|].
  cbv zeta. rewrite Hl.
  destruct (decode_slice _ _) as [slice|e]; [|reflexivity].
  rewrite predictor_segment_slice_demo.
  destruct (_generate_demo_mask _ _ _) as [[m|e] st']; reflexivity.
Qed.

(** Where a returned response comes from. *)
Lemma segment_slice_returns (predictor : option MedSAM3Predictor) (st : rng)
    (request : SegmentationRequest) (response : SegmentationResponse) :
  fst (segment_slice predictor st request) = Return response ->
  truthy (points request) || truthy (boxes request) = true /\
  exists m cs,
    find_contours m = Return cs /\
    response =
      {| mask_rle := mask_to_rle m;
         mask_shape := [Z.of_nat (mask_H m); Z.of_nat (mask_W m)];
         confidence := if model_path predictor then 0.85%float
                       else 0.75%float;
         contours := Some cs |} /\
    exists st',
      if model_path predictor then
        exists slice,
          decode_slice (slice_data request) (slice_shape request)
          = Return slice /\
          _generate_demo_mask st (firstn 2 (nd_shape slice))
                              (build_prompt request) = (Return m, st')
      else
        generate_demo_mask st (slice_shape request)
                           (points request) (boxes request)
        = (Return m, st').
Proof.
  destruct (model_path predictor) eqn:Hp.
  - rewrite (segment_slice_model _ _ _ Hp).
    destruct (truthy (points request)), (truthy (boxes request));
      cbn [negb andb orb]; try discriminate;
      (destruct (decode_slice _ _) as [slice|e]; [|discriminate];
       destruct (_generate_demo_mask _ _ _) as [[m|e] st'] eqn:G;
         cbn [fst bind try_except_Exception]; [|discriminate];
       destruct (find_contours m) as [cs|e] eqn:Hc; cbn [bind];
         [|discriminate];
       intro E; injection E as <-; split; [reflexivity|];
       exists m, cs; split; [exact Hc|split; [reflexivity|]];
       exists st', slice; split; [reflexivity|exact G]).
  - rewrite (segment_slice_demo _ _ _ Hp).
    destruct (truthy (points request)), (truthy (boxes request));
      cbn [negb andb orb]; try discriminate;
      (destruct (generate_demo_mask _ _ _ _) as [[m|e] st'] eqn:G;
         cbn [fst bind]; [|discriminate];
       destruct (find_contours m) as [cs|e] eqn:Hc; cbn [bind];
         [|discriminate];
       intro E; injection E as <-; split; [reflexivity|];
       exists m, cs; split; [exact Hc|split; [reflexivity|]];
       exists st'; first [reflexivity|exact G]).
Qed.

(** X4: every response [segment_slice] returns is a coherent envelope: its
    [mask_shape] is a pair [h, w] of non-negative sizes, the runs of its
    [mask_rle] carry values 0 or 1, have length at least 1, never repeat a
    value in adjacent runs and sum to [h * w].  In demo mode [h, w] is the
    declared [slice_shape]; on the model path it is the first two
    dimensions of the decoded slice. *)
Theorem response_envelope (predictor : option MedSAM3Predictor) (st : rng)
    (request : SegmentationRequest) (response : SegmentationResponse) :
  fst (segment_slice predictor st request) = Return response ->
  exists h w,
    mask_shape response = [h; w] /\ 0 <= h /\ 0 <= w /\
    Forall (fun r : run => fst r = 0 \/ fst r = 1) (mask_rle response) /\
    Forall (fun r : run => 1 <= snd r) (mask_rle response) /\
    no_adjacent_equal (mask_rle response) = true /\
    sum_lengths (mask_rle response) = h * w /\
    (model_path predictor = false -> slice_shape request = [h; w]) /\
    (model_path predictor = true ->
     exists slice,
       decode_slice (slice_data request) (slice_shape request) = Return slice
       /\ firstn 2 (nd_shape slice) = [h; w]).
Proof.
  intro E.
  destruct (segment_slice_returns _ _ _ _ E)
    as (_ & m & cs & _ & -> & st' & Hsrc).
  assert (Hm : exists H W entry shape,
             shape = [H; W] /\ np_zeros_ok H W = true /\
             m = np_grid H W entry /\
             (model_path predictor = false -> slice_shape request = shape) /\
             (model_path predictor = true ->
              exists slice,
                decode_slice (slice_data request) (slice_shape request)
                = Return slice /\ firstn 2 (nd_shape slice) = shape)).
  { destruct (model_path predictor).
    - destruct Hsrc as (slice & Hd & G).
      destruct (_generate_demo_mask_grid _ _ _ _ _ G)
        as (H & W & entry & Hs & Hz & Hg).
      exists H, W, entry, (firstn 2 (nd_shape slice)).
      split; [exact Hs|split; [exact Hz|split; [exact Hg|split]]].
      + discriminate.
      + intros _. exists slice. split; [assumption|reflexivity].
    - destruct (generate_demo_mask_grid _ _ _ _ _ _ Hsrc)
        as (H & W & entry & Hs & Hz & Hg).
      exists H, W, entry, (slice_shape request).
      split; [exact Hs|split; [exact Hz|split; [exact Hg|split]]].
      + reflexivity.
      + discriminate. }
  destruct Hm as (H & W & entry & shape & Hs & Hz & -> & Hdemo & Hmodel).
  destruct (np_zeros_ok_nonneg _ _ Hz) as [HH HW].
  destruct (mask_to_rle_invariants _ (np_grid_wf H W entry))
    as (Hv & Hc & Hp & Hsum).
  exists H, W. cbn [mask_shape mask_rle np_grid mask_H mask_W] in *.
  rewrite !Z2Nat.id by assumption.
  repeat split; try assumption.
  - rewrite Hsum, Nat2Z.inj_mul, !Z2Nat.id by assumption. reflexivity.
  - intro Hp'. rewrite (Hdemo Hp'). exact Hs.
  - intro Hp'. destruct (Hmodel Hp') as (slice & Hd & Hf).
    exists slice. split; [assumption|]. rewrite Hf. exact Hs.
Qed.

(** X5: the confidence of a response tells the path that produced it: 0.75
    in demo mode, 0.85 on the model path; both lie in [0, 1] and the demo
    value is strictly the lower one. *)
Theorem response_confidence (predictor : option MedSAM3Predictor) (st : rng)
    (request : SegmentationRequest) (response : SegmentationResponse) :
  fst (segment_slice predictor st request) = Return response ->
  confidence response
  = (if model_path predictor then 0.85 else 0.75)%float /\
  ((0 <=? confidence response) && (confidence response <=? 1))%float = true /\
  (forall predictor' st' request' response',
      model_path predictor = false ->
      model_path predictor' = true ->
      fst (segment_slice predictor' st' request') = Return response' ->
      (confidence response <? confidence response')%float = true).
Proof.
  intro E.
  destruct (segment_slice_returns _ _ _ _ E)
    as (_ & m & cs & _ & -> & _).
  cbn [confidence]. split; [reflexivity|split].
  - destruct (model_path predictor); reflexivity.
  - intros predictor' st' request' response' Hd Hl E'.
    destruct (segment_slice_returns _ _ _ _ E')
      as (_ & m' & cs' & _ & -> & _).
    cbn [confidence]. rewrite Hd, Hl. reflexivity.
Qed.

Lemma py_int_raises (f : float) (e : exn) :
  py_int f = Raise e -> e = ValueError \/ e = OverflowError.
Proof.
  unfold py_int. destruct (Prim2SF f); intro E; try discriminate;
    injection E as <-; auto.
Qed.

Lemma generate_demo_mask_raises (st : rng) (shape : list Z)
    (pts : option (list PointPrompt)) (bxs : option (list BoxPrompt))
    (e : exn) :
  fst (generate_demo_mask st shape pts bxs) = Raise e ->
  e = ValueError \/ e = OverflowError.
Proof.
  unfold generate_demo_mask.
  destruct shape as [|H [|W [|? ?]]];
    try (cbn; intro E; injection E as <-; auto; fail).
  destruct (np_zeros_ok H W); [|cbn; intro E; injection E as <-; auto].
  destruct (py_int _) as [seed|e'] eqn:Hi.
  - destruct (seed_ok seed); [|cbn; intro E; injection E as <-; auto].
    destruct (random_sample _ _). discriminate.
  - cbn. intro E. injection E as <-. exact (py_int_raises _ _ Hi).
Qed.

Lemma contours_result_raises (traced : list (list (Z * Z))) (e : exn) :
  contours_result traced = Raise e -> e = IndexError.
Proof.
  induction traced as [|c t IH]; cbn [contours_result]; [discriminate|].
  unfold contour_points.
  destruct (map _ c) as [|p [|q l]]; cbn [bind].
  - intro E. injection E as <-. reflexivity.
  - destruct (contours_result t); cbn [bind]; [discriminate|].
    intro E. injection E as <-. apply IH. reflexivity.
  - destruct (contours_result t); cbn [bind]; [discriminate|].
    intro E. injection E as <-. apply IH. reflexivity.
Qed.

(** X6: provided the contour tracer raises no [HTTPException] of its own,
    the status of [segment_slice] is 200, 400 or 500, and it is 400
    exactly when the request carries neither a point nor a box: no
    malformed buffer, bad shape or failing inference is ever reported as
    a client error. *)
Theorem segment_status (predictor : option MedSAM3Predictor) (st : rng)
    (request : SegmentationRequest) :
  (forall findContours img code,
      cv2 = Some findContours ->
      findContours img <> Raise (HTTPException code)) ->
  let status := http_status (fst (segment_slice predictor st request)) in
  (status = 200 \/ status = 400 \/ status = 500) /\
  (status = 400 <->
   truthy (points request) = false /\ truthy (boxes request) = false).
Proof.
  intros Hcv2.
  assert (Hfc : forall m,
             (exists cs, find_contours m = Return cs) \/
             (exists e, find_contours m = Raise e /\
                        http_status (@Raise SegmentationResponse e) = 500)).
  { intro m. unfold find_contours. destruct cv2 as [fc|] eqn:Hc; [|eauto].
    destruct (fc (mask_uint8 m)) as [traced|e] eqn:Ht; cbn [bind].
    - destruct (contours_result traced) as [cs|e] eqn:Hr; [eauto|].
      right. exists e. rewrite (contours_result_raises _ _ Hr).
      split; reflexivity.
    - right. exists e. split; [reflexivity|].
      destruct e; try reflexivity. exfalso.
      exact (Hcv2 fc (mask_uint8 m) status_code eq_refl Ht). }
  assert (Hprompt : truthy (points request) = false /\
                    truthy (boxes request) = false <->
                    negb (truthy (points request))
                    && negb (truthy (boxes request)) = true)
    by (destruct (truthy (points request)), (truthy (boxes request));
        cbn; intuition congruence).
  cbv zeta.
  assert (Hcases :
            (negb (truthy (points request)) && negb (truthy (boxes request))
             = true /\
             http_status (fst (segment_slice predictor st request)) = 400) \/
            (negb (truthy (points request)) && negb (truthy (boxes request))
             = false /\
             (http_status (fst (segment_slice predictor st request)) = 200 \/
              http_status (fst (segment_slice predictor st request)) = 500))).
  { destruct (model_path predictor) eqn:Hp.
    - rewrite (segment_slice_model _ _ _ Hp).
      destruct (negb (truthy (points request))
                && negb (truthy (boxes request)));
        [left; split; reflexivity|right; split; [reflexivity|]].
      destruct (decode_slice _ _) as [slice|e]; [|right; reflexivity].
      destruct (_generate_demo_mask _ _ _) as [[m|e] st'];
        cbn [fst bind try_except_Exception]; [|right; reflexivity].
      destruct (Hfc m) as [[cs ->]|(e & -> & He)]; cbn [bind];
        [left; reflexivity|right; exact He].
    - rewrite (segment_slice_demo _ _ _ Hp).
      destruct (negb (truthy (points request))
                && negb (truthy (boxes request)));
        [left; split; reflexivity|right; split; [reflexivity|]].
      destruct (generate_demo_mask _ _ _ _) as [[m|e] st'] eqn:G;
        cbn [fst bind].
      + destruct (Hfc m) as [[cs ->]|(e & -> & He)]; cbn [bind];
          [left; reflexivity|right; exact He].
      + right.
        destruct (generate_demo_mask_raises st (slice_shape request)
                    (points request) (boxes request) e) as [-> | ->];
          [rewrite G; reflexivity|reflexivity|reflexivity]. }
  destruct Hcases as [[Hn Hs]|[Hn Hs]].
  - split; [auto|]. split; [intros _; apply Hprompt; exact Hn|auto].
  - split; [destruct Hs; auto|]. split.
    + intro H4. destruct Hs as [Hs|Hs]; rewrite Hs in H4; discriminate.
    + intro Hno. apply Hprompt in Hno. congruence.
Qed.

(** X7: on the model path the pixel values and the windowing never reach
    the mask: two requests with the same prompts whose buffers decode to
    arrays of the same shape get the same outcome, whatever the buffers
    hold and whatever window they ask for. *)
Theorem model_path_ignores_pixels (predictor : option MedSAM3Predictor)
    (st1 st2 : rng) (request1 request2 : SegmentationRequest)
    (slice1 slice2 : ndarray) :
  model_path predictor = true ->
  points request1 = points request2 ->
  boxes request1 = boxes request2 ->
  decode_slice (slice_data request1) (slice_shape request1) = Return slice1 ->
  decode_slice (slice_data request2) (slice_shape request2) = Return slice2 ->
  nd_shape slice1 = nd_shape slice2 ->
  fst (segment_slice predictor st1 request1)
  = fst (segment_slice predictor st2 request2).
Proof.
  intros Hl Hp Hb Hd1 Hd2 Hs. rewrite !segment_slice_model by assumption.
  rewrite Hd1, Hd2, Hs, Hp, Hb.
  destruct (negb (truthy (points request2)) && negb (truthy (boxes request2)));
    [reflexivity|].
  assert (Hprompt : build_prompt request1 = build_prompt request2)
    by (unfold build_prompt; rewrite Hp, Hb; reflexivity).
  rewrite Hprompt.
  pose proof (_generate_demo_mask_reseeds st1 st2
                (firstn 2 (nd_shape slice2)) (build_prompt request2)) as D.
  destruct (_generate_demo_mask st1 _ _) as [r1 s1].
  destruct (_generate_demo_mask st2 _ _) as [r2 s2].
  cbn [fst] in *. rewrite D. reflexivity.
Qed.

(** ** find_contours *)

Lemma contours_result_nonempty (traced : list (list (Z * Z))) :
  Forall (fun c => c <> []) traced ->
  contours_result traced
  = Return (map (map (fun p => (float_of_int (fst p), float_of_int (snd p))))
                traced).
Proof.
  induction 1 as [|c t Hc _ IH]; [reflexivity|].
  cbn [contours_result map]. rewrite IH. unfold contour_points.
  destruct c as [|p [|q l]]; [contradiction|reflexivity|reflexivity].
Qed.

Lemma contours_result_empty (traced : list (list (Z * Z))) :
  Exists (fun c => c = []) traced ->
  contours_result traced = Raise IndexError.
Proof.
  induction 1 as [c t Hc|c t _ IH]; cbn [contours_result].
  - rewrite Hc. reflexivity.
  - destruct (contour_points c) as [pts|e] eqn:Hp; cbn [bind].
    + rewrite IH. reflexivity.
    + unfold contour_points in Hp.
      destruct (map _ c) as [|p [|q l]]; try discriminate.
      injection Hp as <-. reflexivity.
Qed.

(** X8: [find_contours] gives [[]] when cv2 is missing; with cv2 it hands
    back one polygon per traced contour, with the contour's points in
    order as float pairs (a single-point contour as a one-point polygon);
    an error of the tracer is not caught, and an empty contour is an
    [IndexError]. *)
Theorem find_contours_polygons (m : mask) :
  (cv2 = None -> find_contours m = Return []) /\
  (forall findContours, cv2 = Some findContours ->
     (forall e, findContours (mask_uint8 m) = Raise e ->
                find_contours m = Raise e) /\
     (forall traced, findContours (mask_uint8 m) = Return traced ->
        (Forall (fun c => c <> []) traced ->
         find_contours m
         = Return (map (map (fun p => (float_of_int (fst p),
                                       float_of_int (snd p)))) traced)) /\
        (Exists (fun c => c = []) traced ->
         find_contours m = Raise IndexError))).
Proof.
  unfold find_contours. split.
  - intros ->. reflexivity.
  - intros fc ->. split.
    + intros e ->. reflexivity.
    + intros traced ->. cbn [bind]. split.
      * apply contours_result_nonempty.
      * apply contours_result_empty.
Qed.

(** ** decode_slice *)






(** ** The predictor's prompt dictionary *)

Lemma fg_points_from_short (labels : list Z) (pts : list (float * float)) :
  forall i, pts <> [] -> (length labels < i + length pts)%nat ->
  fg_points_from labels i pts = Raise IndexError.
Proof.
  induction pts as [|p t IH]; intros i Hne Hlen; [contradiction|].
  cbn [fg_points_from].
  destruct (nth_error labels i) as [l|] eqn:Hn; [|reflexivity].
  assert (Hi : (i < length labels)%nat)
    by (apply nth_error_Some; congruence).
  rewrite IH; [reflexivity| |cbn [length] in Hlen; lia].
  destruct t; [cbn [length] in Hlen; lia|discriminate].
Qed.

Lemma fg_points_from_enough (labels : list Z) (pts : list (float * float)) :
  forall i, (i + length pts <= length labels)%nat ->
  exists fg, fg_points_from labels i pts = Return fg.
Proof.
  induction pts as [|p t IH]; intros i Hlen; cbn [fg_points_from]; [eauto|].
  cbn [length] in Hlen.
  destruct (nth_error labels i) as [l|] eqn:Hn.
  - destruct (IH (S i)) as [fg ->]; [lia|]. cbn [bind]. eauto.
  - apply nth_error_None in Hn. lia.
Qed.

Lemma fg_points_from_default (n : nat) (pts : list (float * float)) :
  forall i, (i + length pts <= n)%nat ->
  fg_points_from (repeat 1 n) i pts = Return pts.
Proof.
  induction pts as [|p t IH]; intros i Hlen; cbn [fg_points_from];
    [reflexivity|].
  cbn [length] in Hlen.
  rewrite (nth_error_repeat 1) by lia.
  rewrite IH by lia. reflexivity.
Qed.

(** X10: how the predictor reads its prompt dictionary.  Without a
    ["labels"] key every point counts as foreground, so the center is the
    first point; with fewer labels than points the lookup of a label
    raises [IndexError]; with at least as many labels as points a center
    is always found (surplus labels are ignored). *)
Theorem predictor_center_labels (H W : Z) :
  (forall p ps bxs,
      predictor_center H W
        {| prompt_points := Some (p :: ps); prompt_labels := None;
           prompt_boxes := bxs |} = Return p) /\
  (forall pts labels bxs,
      pts <> [] -> (length labels < length pts)%nat ->
      predictor_center H W
        {| prompt_points := Some pts; prompt_labels := Some labels;
           prompt_boxes := bxs |} = Raise IndexError) /\
  (forall pts labels bxs,
      (length pts <= length labels)%nat ->
      exists c,
        predictor_center H W
          {| prompt_points := Some pts; prompt_labels := Some labels;
             prompt_boxes := bxs |} = Return c).
Proof.
  unfold predictor_center. cbn [prompt_points prompt_labels prompt_boxes].
  split; [|split].
  - intros p ps bxs.
    rewrite (fg_points_from_default (length (p :: ps)) (p :: ps) 0)
      by (cbn; lia).
    reflexivity.
  - intros pts labels bxs Hne Hlen.
    destruct pts as [|p ps]; [contradiction|].
    rewrite (fg_points_from_short labels (p :: ps) 0 Hne) by (cbn in *; lia).
    reflexivity.
  - intros pts labels bxs Hlen.
    destruct pts as [|p ps].
    + destruct bxs as [[|[[[bx1 by1] bx2] by2] l]|]; eauto.
    + destruct (fg_points_from_enough labels (p :: ps) 0) as [fg ->];
        [cbn in *; lia|].
      cbn [bind]. destruct fg; eauto.
Qed.

(** X11: on a slice with a side shorter than 7 pixels the radius
    [ry = min(H, W) // 7] is 0, the distance field is infinite or NaN
    everywhere, and every mask either synthesizer returns is empty,
    whatever the prompts and the noise; a demo-mode response for such a
    slice is the single background run [[0, H*W]] (no run at all for a
    slice without pixels). *)
Theorem small_slice_empty_mask (H W : Z) :
  Z.min H W < 7 ->
  (forall st st' m pts bxs,
      generate_demo_mask st [H; W] pts bxs = (Return m, st') ->
      Forall (Forall (eq false)) (mask_rows m)) /\
  (forall st st' m prompt,
      _generate_demo_mask st [H; W] prompt = (Return m, st') ->
      Forall (Forall (eq false)) (mask_rows m)) /\
  (forall predictor st request response,
      model_path predictor = false ->
      slice_shape request = [H; W] ->
      fst (segment_slice predictor st request) = Return response ->
      mask_rle response = if H * W =? 0 then [] else [(0, H * W)]).
Proof.
  intro Hsmall. split; [|split].
  - intros st st' m pts bxs. apply generate_demo_mask_small. exact Hsmall.
  - intros st st' m prompt. apply _generate_demo_mask_small. exact Hsmall.
  - intros predictor st request response Hd Hs E.
    destruct (segment_slice_returns _ _ _ _ E)
      as (_ & m & cs & _ & -> & st' & Hsrc).
    rewrite Hd, Hs in Hsrc. cbn [mask_rle].
    pose proof (generate_demo_mask_small _ _ _ _ _ _ _ Hsmall Hsrc) as Hf.
    destruct (generate_demo_mask_grid _ _ _ _ _ _ Hsrc)
      as (H' & W' & entry & Heq & Hz & ->).
    injection Heq as <- <-.
    destruct (np_zeros_ok_nonneg _ _ Hz) as [HH HW].
    rewrite (constant_mask_runs _ false (np_grid_wf H W entry) Hf).
    cbn [np_grid mask_H mask_W astype_uint8].
    rewrite <- Z2Nat.inj_mul by assumption.
    destruct (Z.eqb_spec (H * W) 0) as [E0|Hne].
    + rewrite E0. reflexivity.
    + destruct (Z.to_nat (H * W)) eqn:En; [lia|].
      cbn [Nat.eqb]. rewrite <- En, Z2Nat.id by lia. reflexivity.
Qed.

(** ** Which prompts reach the demo mask *)

(** The prompts enter [generate_demo_mask] through the center alone. *)
Lemma generate_demo_mask_by_center (st1 st2 : rng) (shape : list Z)
    (pts1 pts2 : option (list PointPrompt))
    (bxs1 bxs2 : option (list BoxPrompt)) :
  (forall H W, demo_center H W pts1 bxs1 = demo_center H W pts2 bxs2) ->
  fst (generate_demo_mask st1 shape pts1 bxs1)
  = fst (generate_demo_mask st2 shape pts2 bxs2).
Proof.
  intro Hc. unfold generate_demo_mask.
  destruct shape as [|H [|W [|? ?]]]; try reflexivity.
  rewrite (Hc H W).
  destruct (np_zeros_ok H W); [|reflexivity].
  destruct (py_int _) as [seed|e]; [|reflexivity].
  destruct (seed_ok seed); [|reflexivity].
  destruct (random_sample _ _). reflexivity.
Qed.

Lemma demo_center_first_fg (H W : Z) (pre post : list PointPrompt)
    (p : PointPrompt) (bxs : option (list BoxPrompt)) :
  Forall (fun q => label q <> 1) pre -> label p = 1 ->
  demo_center H W (Some (pre ++ p :: post)) bxs = (x p, y p).
Proof.
  intros Hpre Hp.
  destruct (filter_first_fg pre post p Hpre Hp) as [rest E].
  unfold demo_center.
  destruct (pre ++ p :: post) as [|a l] eqn:El.
  - destruct pre; discriminate.
  - rewrite E. reflexivity.
Qed.

(** X15: in demo mode only the first foreground point reaches the mask.
    Two requests for the same shape whose first foreground points have the
    same coordinates get the same outcome, whatever background points
    come before, whatever points come after, and whatever boxes each
    request carries: the extent of a box and every further prompt are
    ignored. *)
Theorem first_foreground_point_decides
    (predictor : option MedSAM3Predictor) (st1 st2 : rng)
    (request1 request2 : SegmentationRequest)
    (pre1 post1 pre2 post2 : list PointPrompt) (p1 p2 : PointPrompt) :
  model_path predictor = false ->
  slice_shape request1 = slice_shape request2 ->
  points request1 = Some (pre1 ++ p1 :: post1) ->
  points request2 = Some (pre2 ++ p2 :: post2) ->
  Forall (fun q => label q <> 1) pre1 -> label p1 = 1 ->
  Forall (fun q => label q <> 1) pre2 -> label p2 = 1 ->
  x p1 = x p2 -> y p1 = y p2 ->
  fst (segment_slice predictor st1 request1)
  = fst (segment_slice predictor st2 request2).
Proof.
  intros Hd Hs Hp1 Hp2 Hpre1 Hl1 Hpre2 Hl2 Hx Hy.
  rewrite !segment_slice_demo by assumption.
  assert (Ht : forall (pre post : list PointPrompt) q,
             truthy (Some (pre ++ q :: post)) = true)
    by (intros [|a pre] post q; reflexivity).
  rewrite Hp1, Hp2, !Ht, Hs. cbn [negb andb].
  pose proof (generate_demo_mask_by_center st1 st2 (slice_shape request2)
                (Some (pre1 ++ p1 :: post1)) (Some (pre2 ++ p2 :: post2))
                (boxes request1) (boxes request2)) as D.
  destruct (generate_demo_mask st1 _ _ _) as [r1 s1].
  destruct (generate_demo_mask st2 _ _ _) as [r2 s2].
  cbn [fst] in *. rewrite D; [reflexivity|].
  intros H W.
  rewrite !demo_center_first_fg by assumption.
  rewrite Hx, Hy. reflexivity.
Qed.

End Service.

(** ** The health endpoint *)

(** C4: [health_check] is total; its [mode] is ["production"] exactly when
    the global predictor is an object, loaded or not, and ["demo"] when it
    is [None].  In particular the predictor built at startup from an
    existing checkpoint whose SAM3 import failed reports
    [model_loaded = false] together with [mode = "production"], while
    [segment_slice] treats that state as demo mode. *)
Theorem health_check_mode :
  (forall p, mode (health_check (Some p)) = "production"%string) /\
  mode (health_check None) = "demo"%string /\
  Examples.failed_predictor
  = Some {| device := "cpu"; model := None;
            predictor_model_loaded := false |} /\
  health_check Examples.failed_predictor
  = {| status := "healthy"; model_loaded := false; mode := "production" |} /\
  model_path Examples.failed_predictor = false.
Proof. repeat split. Qed.

(** * The service run on concrete requests *)

Import Examples.

Lemma rle_round_trip_witness :
  wf_mask checker /\ decode (mask_to_rle checker) 2 3 = Some checker.
Proof.
  assert (Hwf : wf_mask checker) by (split; [reflexivity|repeat constructor]).
  split; [exact Hwf|]. exact (rle_round_trip checker Hwf).
Defined.

Lemma rle_canonical_form_witness :
  wf_mask checker /\
  no_adjacent_equal (mask_to_rle checker) = true /\
  sum_lengths (mask_to_rle checker) = 6.
Proof.
  assert (Hwf : wf_mask checker) by (split; [reflexivity|repeat constructor]).
  destruct (rle_canonical_form checker Hwf) as (Hc & _ & Hs & _).
  split; [exact Hwf|split; [exact Hc|exact Hs]].
Defined.

(** The service over the stand-in libraries; [cv2] is [None] when OpenCV
    is missing. *)
Local Abbreviation standin_segment cv2 :=
  (segment_slice Standin.rng Standin.mt_seed Standin.random_sample
                 Standin.b64decode cv2).

(** C2, against the claim as stated: in demo mode a request with a
    malformed buffer (an empty buffer for a 7 x 7 slice, or base64 that
    does not decode) is answered with status 200, not 400. *)
Lemma malformed_buffer_counterexample :
  malformed Standin.b64decode empty_buffer [7; 7] = true /\
  malformed Standin.b64decode bad_base64 [7; 7] = true /\
  http_status
    (fst (standin_segment None None 0
            (request empty_buffer [7; 7] (Some [fg_center]) None))) = 200 /\
  http_status
    (fst (standin_segment None None 0
            (request bad_base64 [7; 7] (Some [fg_center]) None))) = 200.
Proof. vm_compute. repeat split. Qed.

Lemma malformed_buffer_handling_witness :
  malformed Standin.b64decode empty_buffer [7; 7] = true /\
  decode_slice Standin.b64decode empty_buffer [7; 7] = Raise (HTTPException 400).
Proof.
  assert (Hm : malformed Standin.b64decode empty_buffer [7; 7] = true) by reflexivity.
  split; [exact Hm|].
  exact (proj1 (malformed_buffer_handling
                  Standin.rng Standin.mt_seed Standin.random_sample
                  Standin.b64decode None None 0
                  (request empty_buffer [7; 7] (Some [fg_center]) None) Hm)).
Defined.

(** With a loaded predictor the 400 of [decode_slice] is caught by the
    handler around the model path and leaves as a 500. *)
Lemma malformed_buffer_loaded_status :
  model_path loaded_predictor = true /\
  fst (standin_segment None loaded_predictor 0
         (request empty_buffer [7; 7] (Some [fg_center]) None))
  = Raise (HTTPException 500) /\
  malformed Standin.b64decode one_element_buffer [1; 1] = false /\
  http_status
    (fst (standin_segment None loaded_predictor 0
            (request one_element_buffer [1; 1] (Some [fg_center]) None)))
  = 200.
Proof. vm_compute. repeat split. Qed.

(** C3, against the claim as stated: without cv2 the response still has
    its [contours] field, holding the empty list. *)
Lemma contours_counterexample :
  fst (standin_segment None None 0
         (request empty_buffer [7; 7] (Some [fg_center]) None))
  = Return center_response /\
  contours center_response = Some [].
Proof. vm_compute. split; reflexivity. Qed.

Lemma contours_always_present_witness :
  fst (standin_segment None None 0
         (request empty_buffer [7; 7] (Some [fg_center]) None))
  = Return center_response /\
  exists cs, contours center_response = Some cs /\ cs = [].
Proof.
  assert (E : fst (standin_segment None None 0
                     (request empty_buffer [7; 7] (Some [fg_center]) None))
              = Return center_response) by (vm_compute; reflexivity).
  split; [exact E|].
  destruct (contours_always_present
              Standin.rng Standin.mt_seed Standin.random_sample
              Standin.b64decode None None 0 _ _ E) as (cs & Hc & Hn & _).
  exists cs. split; [exact Hc|exact (Hn eq_refl)].
Defined.

(** With the stand-in tracer the same request reports four contours. *)
Lemma contours_with_cv2 :
  match fst (standin_segment (Some Standin.findContours) None 0
               (request empty_buffer [7; 7] (Some [fg_center]) None)) with
  | Return response =>
      option_map (@length polygon) (contours response) = Some 4%nat
  | Raise _ => False
  end.
Proof. vm_compute. reflexivity. Qed.

(** C5, against the claim as stated: with only a background point and a
    box, on a 100 x 100 slice, both synthesizers take the slice center
    (50, 50) and not the centroid (30, 30) of the box. *)
Lemma demo_center_counterexample :
  demo_center 100 100 (Some [bg_point]) (Some [a_box]) = (50, 50)%float /\
  ((x1 a_box + x2 a_box) / 2, (y1 a_box + y2 a_box) / 2)%float
  = (30, 30)%float /\
  demo_center 100 100 (Some [bg_point]) (Some [a_box])
  <> ((x1 a_box + x2 a_box) / 2, (y1 a_box + y2 a_box) / 2)%float /\
  predictor_center 100 100
    (build_prompt (request empty_buffer [100; 100] (Some [bg_point]) (Some [a_box])))
  = Return (50, 50)%float.
Proof.
  repeat split; try (vm_compute; reflexivity).
  intro E.
  apply (f_equal (fun c : float * float => PrimFloat.eqb (fst c) 30)) in E.
  vm_compute in E. discriminate E.
Qed.

Lemma demo_center_selection_witness :
  Forall (fun q => label q <> 1) [bg_point] /\
  demo_center 100 100 (Some [bg_point]) (Some [a_box])
  = (int_truediv_2 100, int_truediv_2 100).
Proof.
  assert (Hbg : Forall (fun q => label q <> 1) [bg_point])
    by (repeat constructor; discriminate).
  split; [exact Hbg|].
  exact (proj1 (proj2 (demo_center_selection 100 100))
           bg_point [] (Some [a_box]) Hbg).
Defined.

(** C6, against the claim as stated: a request that carries a point but
    declares the shape (14, -3) passes validation and then fails in
    [np.zeros]; the answer is a 500, not a response envelope. *)
Lemma prompt_validation_counterexample :
  truthy (points (request empty_buffer [14; -3] (Some [fg_center]) None)) = true /\
  standin_segment None None 0 (request empty_buffer [14; -3] (Some [fg_center]) None)
  = (Raise ValueError, 0) /\
  http_status
    (fst (standin_segment None None 0
            (request empty_buffer [14; -3] (Some [fg_center]) None))) = 500.
Proof. vm_compute. repeat split. Qed.

Lemma prompt_validation_witness :
  truthy (points (request empty_buffer [7; 7] (Some []) None)) = false /\
  truthy (boxes (request empty_buffer [7; 7] (Some []) None)) = false /\
  standin_segment None None 0 (request empty_buffer [7; 7] (Some []) None)
  = (Raise (HTTPException 400), 0).
Proof.
  split; [reflexivity|split; [reflexivity|]].
  exact (proj1 (prompt_validation
                  Standin.rng Standin.mt_seed Standin.random_sample
                  Standin.b64decode None None 0
                  (request empty_buffer [7; 7] (Some []) None))
           eq_refl eq_refl).
Defined.

(** A request with a prompt that does succeed, through the second half of
    the validation theorem. *)
Lemma prompt_validation_success :
  standin_segment None None 0 (request bad_base64 [7; 7] (Some [fg_center]) None)
  = (Return center_response, 4178478812).
Proof. vm_compute. reflexivity. Qed.

Lemma demo_noninterference_witness :
  model_path failed_predictor = false /\
  fst (standin_segment None failed_predictor 0
         (request empty_buffer [7; 7] (Some [fg_center]) None))
  = fst (standin_segment None failed_predictor 12345
           {| slice_data := bad_base64; slice_shape := [7; 7];
              points := Some [fg_center]; boxes := None;
              window_center := Some 40%float;
              window_width := Some 400%float |}).
Proof.
  split; [reflexivity|].
  exact (demo_noninterference
           Standin.rng Standin.mt_seed Standin.random_sample
           Standin.b64decode None failed_predictor 0 12345
           (request empty_buffer [7; 7] (Some [fg_center]) None)
           {| slice_data := bad_base64; slice_shape := [7; 7];
              points := Some [fg_center]; boxes := None;
              window_center := Some 40%float;
              window_width := Some 400%float |}
           eq_refl eq_refl eq_refl eq_refl).
Defined.

Lemma seed_domain_witness :
  py_int (seed_value (demo_center 7 7 (Some [fg_negative]) None))
  = Return (-110) /\
  generate_demo_mask Standin.rng Standin.mt_seed Standin.random_sample
                     0 [7; 7] (Some [fg_negative]) None
  = (Raise ValueError, 0).
Proof.
  assert (Hv : py_int (seed_value (demo_center 7 7 (Some [fg_negative]) None))
               = Return (-110)) by (vm_compute; reflexivity).
  split; [exact Hv|].
  exact (proj1 (seed_domain
                  Standin.rng Standin.mt_seed Standin.random_sample
                  Standin.b64decode None 0 7 7 (Some [fg_negative]) None
                  (-110) Hv (or_introl eq_refl))).
Defined.

(** The same prompt through the predictor module: the seed is
    [-110 mod 2^31] and a mask comes back. *)
Lemma seed_domain_predictor_run :
  (-110) mod 2 ^ 31 = 2147483538 /\
  match fst (_generate_demo_mask
               Standin.rng Standin.mt_seed Standin.random_sample 0 [7; 7]
               (build_prompt (request empty_buffer [7; 7] (Some [fg_negative]) None)))
  with
  | Return m => mask_H m = 7%nat /\ mask_W m = 7%nat
  | Raise _ => False
  end.
Proof. vm_compute. repeat split. Qed.

(** * More of the predictor and the info endpoints *)

(** X12: the model path is taken exactly when everything at startup went
    well: the predictor module imported, CHECKPOINT_PATH is set, non-empty
    and names an existing file, PyTorch is present and the weights loaded.
    Whatever happened, a predictor that claims [model_loaded] holds a
    model, and [load_model] on a fresh predictor returns the flag it
    leaves in [model_loaded]. *)
Theorem predictor_lifecycle (HAS_PREDICTOR : bool)
    (checkpoint_path : option string) (path_exists HAS_TORCH : bool)
    (detected : string) (outcome : load_outcome) :
  (model_path (lifespan HAS_PREDICTOR checkpoint_path path_exists HAS_TORCH
                        detected outcome) = true <->
   HAS_PREDICTOR = true /\
   (exists path, checkpoint_path = Some path /\ path <> EmptyString) /\
   path_exists = true /\ HAS_TORCH = true /\ outcome = WeightsLoaded) /\
  (forall p,
      lifespan HAS_PREDICTOR checkpoint_path path_exists HAS_TORCH
               detected outcome = Some p ->
      predictor_model_loaded p = true -> model p = Some Sam3ImageModel) /\
  (forall self,
      predictor_model_loaded self = false ->
      snd (load_model HAS_TORCH self outcome)
      = predictor_model_loaded (fst (load_model HAS_TORCH self outcome))).
Proof.
  split; [|split].
  - unfold lifespan, predictor_init, load_model. split.
    + destruct checkpoint_path as [[|c path]|]; [| |discriminate].
      * rewrite andb_false_r. discriminate.
      * destruct HAS_PREDICTOR, path_exists, HAS_TORCH, outcome;
          cbn; try discriminate.
        intros _. repeat split. eexists. split; [reflexivity|discriminate].
    + intros (-> & (path & -> & Hne) & -> & -> & ->).
      destruct path as [|c path]; [contradiction|reflexivity].
  - intro p. unfold lifespan, predictor_init, load_model.
    destruct checkpoint_path as [[|c path]|]; [| |discriminate].
    + rewrite andb_false_r. discriminate.
    + destruct HAS_PREDICTOR, path_exists, HAS_TORCH, outcome; cbn;
        try discriminate; intro E; injection E as <-; cbn;
        try discriminate; reflexivity.
  - intros self Hu. unfold load_model.
    destruct HAS_TORCH, outcome; cbn; auto.
Qed.

(** X13: /health and /model-info agree on whether a model is loaded, for
    every state of the global predictor; /model-info carries a ["mode"]
    key (always ["demo"]) only when there is no predictor object, and
    parameter counts only for a predictor that holds a loaded model. *)
Theorem model_info_keys (HAS_TORCH HAS_CV2 : bool)
    (parameters : Sam3Model -> list (Z * bool))
    (predictor : option MedSAM3Predictor) :
  let info := model_info HAS_TORCH HAS_CV2 parameters predictor in
  dict_get info "loaded"
  = Some (VBool (model_loaded (health_check predictor))) /\
  dict_get info "mode"
  = match predictor with
    | Some _ => None
    | None => Some (VStr "demo")
    end /\
  (dict_get info "total_params" <> None <->
   dict_get info "trainable_params" <> None) /\
  (dict_get info "total_params" <> None <->
   exists p mdl,
     predictor = Some p /\ model p = Some mdl /\
     predictor_model_loaded p = true).
Proof.
  cbv zeta. unfold model_info, get_model_info.
  destruct predictor as [[dev [mdl|] loaded]|];
    cbn [model predictor_model_loaded device health_check model_loaded].
  - destruct loaded; cbn; (split; [reflexivity|split; [reflexivity|split]]);
      split; try discriminate; try congruence.
    all: try (intros (p & mdl' & E & _ & El); injection E as <-;
              discriminate).
    intros _. eexists. eexists. repeat split.
  - cbn. (split; [reflexivity|split; [reflexivity|split]]);
      split; try congruence.
    intros (p & mdl' & E & Hm & _). injection E as <-. discriminate.
  - cbn. (split; [reflexivity|split; [reflexivity|split]]);
      split; try congruence.
    intros (p & mdl' & E & _). discriminate.
Qed.

Lemma sum_numel_trainable (parameters : list (Z * bool)) :
  Forall (fun p => 0 <= fst p) parameters ->
  0 <= sum_numel snd parameters <= sum_numel (fun _ => true) parameters.
Proof.
  unfold sum_numel.
  induction 1 as [|p ps Hp _ IH]; cbn [filter fold_right]; [lia|].
  destruct (snd p); cbn [fold_right]; lia.
Qed.

(** X14: for a predictor holding a loaded model whose parameters have
    non-negative element counts, /model-info reports both counts, and the
    trainable count lies between 0 and the total count. *)
Theorem model_info_parameter_counts (HAS_TORCH HAS_CV2 : bool)
    (parameters : Sam3Model -> list (Z * bool)) (p : MedSAM3Predictor)
    (mdl : Sam3Model) :
  model p = Some mdl -> predictor_model_loaded p = true ->
  Forall (fun q => 0 <= fst q) (parameters mdl) ->
  exists total trainable,
    dict_get (model_info HAS_TORCH HAS_CV2 parameters (Some p))
             "total_params" = Some (VInt total) /\
    dict_get (model_info HAS_TORCH HAS_CV2 parameters (Some p))
             "trainable_params" = Some (VInt trainable) /\
    total = sum_numel (fun _ => true) (parameters mdl) /\
    0 <= trainable <= total.
Proof.
  intros Hm Hl Hpos. unfold model_info, get_model_info.
  rewrite Hm, Hl.
  exists (sum_numel (fun _ => true) (parameters mdl)),
         (sum_numel snd (parameters mdl)).
  split; [reflexivity|split; [reflexivity|split; [reflexivity|]]].
  apply sum_numel_trainable. exact Hpos.
Qed.

(** * More runs on concrete requests *)

Lemma demo_mask_has_slice_shape_witness :
  generate_demo_mask Standin.rng Standin.mt_seed Standin.random_sample
                     0 [7; 7] (Some [fg_center]) None
  = (Return center_mask, 4178478812) /\
  wf_mask center_mask /\
  Z.of_nat (mask_H center_mask) = 7 /\ Z.of_nat (mask_W center_mask) = 7.
Proof.
  assert (G : generate_demo_mask Standin.rng Standin.mt_seed
                Standin.random_sample 0 [7; 7] (Some [fg_center]) None
              = (Return center_mask, 4178478812))
    by (vm_compute; reflexivity).
  split; [exact G|].
  exact (proj1 (demo_mask_has_slice_shape
                  Standin.rng Standin.mt_seed Standin.random_sample
                  0 4178478812 7 7 center_mask)
           (Some [fg_center]) None G).
Defined.

Lemma response_envelope_witness :
  fst (standin_segment None None 0
         (request empty_buffer [7; 7] (Some [fg_center]) None))
  = Return center_response /\
  exists h w,
    mask_shape center_response = [h; w] /\
    sum_lengths (mask_rle center_response) = h * w.
Proof.
  assert (E : fst (standin_segment None None 0
                     (request empty_buffer [7; 7] (Some [fg_center]) None))
              = Return center_response) by (vm_compute; reflexivity).
  split; [exact E|].
  destruct (response_envelope
              Standin.rng Standin.mt_seed Standin.random_sample
              Standin.b64decode None None 0 _ _ E)
    as (h & w & Hs & _ & _ & _ & _ & _ & Hsum & _).
  exists h, w. split; assumption.
Defined.

Lemma response_confidence_witness :
  fst (standin_segment None loaded_predictor 0
         (request one_element_buffer [1; 1] (Some [fg_center]) None))
  = Return pixel_response /\
  confidence pixel_response = 0.85%float.
Proof.
  assert (E : fst (standin_segment None loaded_predictor 0
                     (request one_element_buffer [1; 1]
                              (Some [fg_center]) None))
              = Return pixel_response) by (vm_compute; reflexivity).
  split; [exact E|].
  exact (proj1 (response_confidence
                  Standin.rng Standin.mt_seed Standin.random_sample
                  Standin.b64decode None loaded_predictor 0 _ _ E)).
Defined.

Lemma standin_tracer_raises_no_http (img : list (list Z)) (code : Z) :
  Standin.findContours img <> Raise (HTTPException code).
Proof.
  unfold Standin.findContours. destruct (concat img); discriminate.
Qed.

Lemma segment_status_witness :
  http_status
    (fst (standin_segment (Some Standin.findContours) loaded_predictor 0
            (request bad_base64 [7; 7] (Some [fg_center]) None))) = 400
  <-> truthy (Some [fg_center]) = false /\ truthy (@None (list BoxPrompt)) = false.
Proof.
  exact (proj2 (segment_status
                  Standin.rng Standin.mt_seed Standin.random_sample
                  Standin.b64decode (Some Standin.findContours)
                  loaded_predictor 0
                  (request bad_base64 [7; 7] (Some [fg_center]) None)
                  (fun fc img code (E : Some Standin.findContours = Some fc) =>
                     match E in _ = o
                           return match o with
                                  | Some f => f img <> Raise (HTTPException code)
                                  | None => True
                                  end
                     with
                     | eq_refl => standin_tracer_raises_no_http img code
                     end))).
Defined.

Lemma small_slice_empty_mask_witness :
  Z.min 5 5 < 7 /\
  fst (standin_segment None None 0
         (request empty_buffer [5; 5] (Some [fg_center]) None))
  = Return small_response /\
  mask_rle small_response = if 5 * 5 =? 0 then [] else [(0, 5 * 5)].
Proof.
  assert (Hs : Z.min 5 5 < 7) by reflexivity.
  assert (E : fst (standin_segment None None 0
                     (request empty_buffer [5; 5] (Some [fg_center]) None))
              = Return small_response) by (vm_compute; reflexivity).
  split; [exact Hs|split; [exact E|]].
  exact (proj2 (proj2 (small_slice_empty_mask
                         Standin.rng Standin.mt_seed Standin.random_sample
                         Standin.b64decode None 5 5 Hs))
           None 0 (request empty_buffer [5; 5] (Some [fg_center]) None)
           small_response eq_refl eq_refl E).
Defined.

Lemma model_path_ignores_pixels_witness :
  model_path loaded_predictor = true /\
  fst (standin_segment None loaded_predictor 0
         (request one_element_buffer [1; 1] (Some [fg_center]) None))
  = fst (standin_segment None loaded_predictor 99
           {| slice_data := unit_element_buffer; slice_shape := [1; 1];
              points := Some [fg_center]; boxes := None;
              window_center := Some 40%float;
              window_width := Some 400%float |}).
Proof.
  split; [reflexivity|].
  refine (model_path_ignores_pixels
            Standin.rng Standin.mt_seed Standin.random_sample
            Standin.b64decode None loaded_predictor 0 99
            (request one_element_buffer [1; 1] (Some [fg_center]) None)
            {| slice_data := unit_element_buffer; slice_shape := [1; 1];
               points := Some [fg_center]; boxes := None;
               window_center := Some 40%float;
               window_width := Some 400%float |}
            _ _ eq_refl eq_refl eq_refl _ _ _);
    [vm_compute; reflexivity|vm_compute; reflexivity|reflexivity].
Defined.

Lemma mask_to_rle_injective_witness :
  wf_mask checker /\
  mask_to_rle checker = mask_to_rle (Mask 2 3 (mask_rows checker)) /\
  checker = Mask 2 3 (mask_rows checker).
Proof.
  assert (Hwf : wf_mask checker) by (split; [reflexivity|repeat constructor]).
  split; [exact Hwf|split; [reflexivity|]].
  exact (mask_to_rle_injective checker (Mask 2 3 (mask_rows checker))
           Hwf Hwf eq_refl eq_refl eq_refl).
Defined.

Lemma mask_to_rle_constant_witness :
  wf_mask (Mask 2 2 [[false; false]; [false; false]]) /\
  mask_to_rle (Mask 2 2 [[false; false]; [false; false]]) = [(0, 4)].
Proof.
  assert (Hwf : wf_mask (Mask 2 2 [[false; false]; [false; false]]))
    by (split; [reflexivity|repeat constructor]).
  split; [exact Hwf|].
  refine (proj1 (mask_to_rle_constant _ false Hwf _) _);
    [discriminate|repeat constructor].
Defined.

Lemma model_info_parameter_counts_witness :
  Forall (fun q => 0 <= fst q) (two_tensors Sam3ImageModel) /\
  exists total trainable,
    dict_get (model_info true false two_tensors (Some loaded_object))
             "total_params" = Some (VInt total) /\
    dict_get (model_info true false two_tensors (Some loaded_object))
             "trainable_params" = Some (VInt trainable) /\
    total = 15 /\ 0 <= trainable <= total.
Proof.
  assert (Hpos : Forall (fun q => 0 <= fst q) (two_tensors Sam3ImageModel))
    by (repeat constructor; cbn; lia).
  split; [exact Hpos|].
  exact (model_info_parameter_counts true false two_tensors loaded_object
           Sam3ImageModel eq_refl eq_refl Hpos).
Defined.

(** The predictor refuses a prompt with fewer labels than points, and
    takes the first point when no labels are given. *)
Lemma predictor_center_labels_run :
  predictor_center 7 7
    {| prompt_points := Some [(1, 2)%float; (3, 4)%float];
       prompt_labels := Some [0]; prompt_boxes := None |}
  = Raise IndexError /\
  predictor_center 7 7
    {| prompt_points := Some [(1, 2)%float; (3, 4)%float];
       prompt_labels := None; prompt_boxes := None |}
  = Return (1, 2)%float.
Proof. split; reflexivity. Qed.

Lemma first_foreground_point_decides_witness :
  model_path failed_predictor = false /\
  fst (standin_segment None failed_predictor 0
         (request empty_buffer [7; 7] (Some [bg_point; fg_center]) None))
  = fst (standin_segment None failed_predictor 1
           (request bad_base64 [7; 7] (Some [fg_center; fg_negative])
                    (Some [a_box]))).
Proof.
  split; [reflexivity|].
  refine (first_foreground_point_decides
            Standin.rng Standin.mt_seed Standin.random_sample
            Standin.b64decode None failed_predictor 0 1
            (request empty_buffer [7; 7] (Some [bg_point; fg_center]) None)
            (request bad_base64 [7; 7] (Some [fg_center; fg_negative])
                     (Some [a_box]))
            [bg_point] [] [] [fg_negative] fg_center fg_center
            eq_refl eq_refl eq_refl eq_refl _ eq_refl _ eq_refl
            eq_refl eq_refl).
  - repeat constructor. discriminate.
  - constructor.
Defined.
